(** * Context-window management of the [llm] helper class (llm.py)

    A shallow embedding of the class [llm] of
    [Context Window Management Challenge/llm.py] and the properties of
    its history handling.

    - Python [str] values are sequences of Unicode code points
      ([pystr := list N]); [str.split()] is modelled after CPython's
      whitespace splitting.
    - Python [int] values are unbounded: [Z].
    - A message is the dict [{'role': ..., 'content': ...}] the code
      builds and reads; both entries are strings.
    - The OpenAI client is the environment.  A method is a finite
      interaction tree ([prog]) whose [Create] nodes are the calls of
      [client.chat.completions.create]; the tree is run against an
      arbitrary client ([run]).  An exception leaves the object in the
      state it had when the exception was raised, so a method maps the
      object to a tree of pairs (object, outcome).
    - The [DEBUG] prints write to the console only and are left out. *)

From Stdlib Require Import String Ascii.
From Stdlib Require Import Bool ZArith NArith QArith Lia List.
Import ListNotations.

Set Implicit Arguments.

Local Open Scope Z_scope.

(* ================================================================= *)
(** ** Python strings *)

Module PyStr.

(** A Python string: its code points, in order. *)
Definition pystr : Type := list N.

(** The code points of an ASCII literal. *)
Definition py (s : string) : pystr :=
  List.map N_of_ascii (list_ascii_of_string s).

Definition eqb (a b : pystr) : bool :=
  if list_eq_dec N.eq_dec a b then true else false.

(** [str.isspace] on one code point, as [str.split()] tests it: the
    ASCII table entries 0x09-0x0D, 0x1C-0x1F and 0x20, and the Unicode
    white-space code points above 0x7F. *)
Definition isspace (c : N) : bool :=
  (((9 <=? c) && (c <=? 13)) || ((28 <=? c) && (c <=? 32))
   || (c =? 133) || (c =? 160) || (c =? 5760)
   || ((8192 <=? c) && (c <=? 8202))
   || (c =? 8232) || (c =? 8233) || (c =? 8239) || (c =? 8287)
   || (c =? 12288))%N.

(** [s.split()] with no separator: skip white space, collect the run of
    non-space code points that follows, and again until the end.  [cur]
    is the run being collected, newest code point first. *)
Fixpoint split_from (cur : pystr) (s : pystr) : list pystr :=
  match s with
  | [] => match cur with [] => [] | _ => [rev cur] end
  | c :: s' =>
      if isspace c
      then match cur with
           | [] => split_from [] s'
           | _ => rev cur :: split_from [] s'
           end
      else split_from (c :: cur) s'
  end.

Definition split (s : pystr) : list pystr := split_from [] s.

(** [sep.join(parts)]. *)
Fixpoint join (sep : pystr) (parts : list pystr) : pystr :=
  match parts with
  | [] => []
  | [p] => p
  | p :: rest => p ++ sep ++ join sep rest
  end.

(** The number of whitespace-delimited words of a text, counted without
    building them: a word starts at every non-space code point that is
    the first one or follows a space.  [after_space] tells whether the
    previous code point was a space (or there was none). *)
Fixpoint word_starts (after_space : bool) (s : pystr) : nat :=
  match s with
  | [] => O
  | c :: s' =>
      ((if after_space && negb (isspace c) then 1 else 0)
       + word_starts (isspace c) s')%nat
  end.

Definition word_count (s : pystr) : nat := word_starts true s.

End PyStr.
Import PyStr.


(* ================================================================= *)
(** ** Data model *)

(** A message dict: [{'role': role, 'content': content}]. *)
Record message : Type := Message {
  role : pystr;
  content : pystr
}.

(** The fields of an [llm] object that the methods read and write.
    [self.client] is the environment (see [prog] below). *)
Record llm : Type := Llm {
  full_message_history : list message;
  summarized_message_history : list message;
  DEBUG : bool;
  token_threshold_to_trigger_summarization : Z
}.

(** The exceptions the code raises itself ([ValueError]), gets from a
    list index ([IndexError]) or receives from the client library. *)
Inductive exn : Type :=
| ValueError (msg : pystr)
| IndexError (msg : pystr)
| ClientError (detail : pystr).

Definition result (A : Type) : Type := (exn + A)%type.

(** The keyword arguments of [client.chat.completions.create]. *)
Record request : Type := Request {
  model : pystr;
  temperature : Q;
  max_tokens : Z;
  response_format : option (list (pystr * pystr));
  messages : list message
}.

(** What the code reads of a completion object: the texts
    [choices[i].message.content], taken to be strings, and
    [usage.total_tokens]. *)
Record response : Type := Response {
  choices : list pystr;
  total_tokens : Z
}.

(** The client returns a completion or raises. *)
Definition reply : Type := result response.

(* ================================================================= *)
(** ** Programs that talk to the client *)

Inductive method : Type :=
| m_add_message_to_history
| m_summarize_chat_history
| m_manage_context_window
| m_send_message
| m_gpt4_conversation
| m_gpt4_one_shot.

(** What an observer of a run sees: a method being entered, and a
    request going to the service together with what came back. *)
Inductive event : Type :=
| EvEnter (m : method)
| EvCreate (rq : request) (a : reply).

(** A finite interaction tree: finish with [r], enter a method, or send
    a request and continue with the client's reply. *)
Inductive prog (R : Type) : Type :=
| Done (r : R)
| Enter (m : method) (p : prog R)
| Create (rq : request) (k : reply -> prog R).

Arguments Done {R} r.
Arguments Enter {R} m p.
Arguments Create {R} rq k.

Fixpoint pbind {R S : Type} (p : prog R) (f : R -> prog S) : prog S :=
  match p with
  | Done r => f r
  | Enter m p' => Enter m (pbind p' f)
  | Create rq k => Create rq (fun a => pbind (k a) f)
  end.

(** A method body: from the object to a tree of (object, outcome). *)
Definition M (A : Type) : Type := llm -> prog (llm * result A).

Definition ret {A : Type} (a : A) : M A := fun self => Done (self, inr a).

Definition raise {A : Type} (e : exn) : M A := fun self => Done (self, inl e).

Definition bind {A B : Type} (m : M A) (f : A -> M B) : M B :=
  fun self =>
    pbind (m self)
          (fun sr => match snd sr with
                     | inl e => Done (fst sr, inl e)
                     | inr a => f a (fst sr)
                     end).

Definition get : M llm := fun self => Done (self, inr self).

Definition put (self' : llm) : M unit := fun _ => Done (self', inr tt).

Definition enter (m : method) : M unit := fun self => Enter m (Done (self, inr tt)).

(** [self.client.chat.completions.create(...)]. *)
Definition create (rq : request) : M response :=
  fun self => Create rq (fun a => Done (self, a)).

Declare Scope py_scope.
Delimit Scope py_scope with pym.
Notation "x <- c1 ;; c2" := (bind c1 (fun x => c2))
  (at level 61, c1 at next level, right associativity) : py_scope.
Notation "c1 ;; c2" := (bind c1 (fun _ => c2))
  (at level 61, right associativity) : py_scope.

(** [xs[-1]]. *)
Definition index_last {A : Type} (xs : list A) : M A :=
  match rev xs with
  | [] => raise (IndexError (py "list index out of range"))
  | x :: _ => ret x
  end.

(** [xs[0]]. *)
Definition index_first {A : Type} (xs : list A) : M A :=
  match xs with
  | [] => raise (IndexError (py "list index out of range"))
  | x :: _ => ret x
  end.

(** Running a tree against a client: [W] is whatever the service
    remembers between requests. *)
Section Run.
Variable W : Type.
Variable client : W -> request -> W * reply.

Fixpoint run {R : Type} (p : prog R) (w : W) : list event * W * R :=
  match p with
  | Done r => ([], w, r)
  | Enter m p' =>
      let o := run p' w in
      (EvEnter m :: fst (fst o), snd (fst o), snd o)
  | Create rq k =>
      let wa := client w rq in
      let o := run (k (snd wa)) (fst wa) in
      (EvCreate rq (snd wa) :: fst (fst o), snd (fst o), snd o)
  end.

Definition trace_of {R : Type} (o : list event * W * R) : list event := fst (fst o).
Definition world_of {R : Type} (o : list event * W * R) : W := snd (fst o).
Definition value_of {R : Type} (o : list event * W * R) : R := snd o.
End Run.

(** Every way the tree can finish satisfies [P], whatever the client
    replies. *)
Fixpoint leaves {R : Type} (P : R -> Prop) (p : prog R) : Prop :=
  match p with
  | Done r => P r
  | Enter _ p' => leaves P p'
  | Create _ k => forall a, leaves P (k a)
  end.

(** Every request the tree can send satisfies [P]. *)
Fixpoint requests {R : Type} (P : request -> Prop) (p : prog R) : Prop :=
  match p with
  | Done _ => True
  | Enter _ p' => requests P p'
  | Create rq k => P rq /\ forall a, requests P (k a)
  end.

(* ================================================================= *)
(** ** The methods of class [llm] *)

Local Open Scope py_scope.

(** [__init__]: the object a caller gets for the key written into
    [OpenAI(api_key=...)]; the shipped empty key raises. *)
Definition init (api_key : pystr) : result llm :=
  if eqb api_key []
  then inl (ValueError
              ([27%N] ++ py "[91m Please enter the OpenAI API key which was provided in the challenge email into llm.py."
               ++ [27%N] ++ py "[0m"))
  else inr {| full_message_history := [];
              summarized_message_history := [];
              DEBUG := false;
              token_threshold_to_trigger_summarization := 1024 |}.

Definition set_histories (self : llm) (full summarized : list message) : llm :=
  {| full_message_history := full;
     summarized_message_history := summarized;
     DEBUG := DEBUG self;
     token_threshold_to_trigger_summarization :=
       token_threshold_to_trigger_summarization self |}.

Definition add_message_to_history (message : message) : M unit :=
  enter m_add_message_to_history ;;
  self <- get ;;
  put (set_histories self
         (full_message_history self ++ [message])
         (summarized_message_history self ++ [message])).

(** [sum(len(message['content'].split()) for message in messages)]:
    [sum] starts from 0 and adds the lengths from left to right. *)
Definition calculate_total_tokens (messages : list message) : Z :=
  fold_left (fun acc message => acc + Z.of_nat (List.length (split (content message))))
            messages 0.

Definition default_model : pystr := py "gpt-4-1106-preview".

Definition context_window_exceeded : pystr :=
  py "CHALLENGE CONTEXT WINDOW EXCEEDED: The context window now exceeds the 4096 token limit. Please try again with a shorter prompt.".

Definition json_object_format (json_response : bool) : option (list (pystr * pystr)) :=
  if json_response then Some [(py "type", py "json_object")] else None.

Definition gpt4_conversation (messages : list message) (json_response : bool)
    (model : pystr) : M response :=
  enter m_gpt4_conversation ;;
  response <- create {| model := model;
                        temperature := 79 # 100;
                        max_tokens := 4096;
                        response_format := json_object_format json_response;
                        messages := messages |} ;;
  if 4096 <? total_tokens response
  then raise (ValueError context_window_exceeded)
  else ret response.

Definition one_shot_request (system_prompt user_prompt : pystr)
    (json_response : bool) (model : pystr) : request :=
  {| model := model;
     temperature := 79 # 100;
     max_tokens := 4096;
     response_format := json_object_format json_response;
     messages := [ {| role := py "system"; content := system_prompt |};
                   {| role := py "user"; content := user_prompt |} ] |}.

Definition gpt4_one_shot (system_prompt user_prompt : pystr)
    (json_response : bool) (model : pystr) : M pystr :=
  enter m_gpt4_one_shot ;;
  response <- create (one_shot_request system_prompt user_prompt json_response model) ;;
  if 4096 <? total_tokens response
  then raise (ValueError context_window_exceeded)
  else index_first (choices response).

Definition summarize_system_prompt : pystr :=
  py "Summarize this conversation, preserving the most crucial information for maintaining dialogue context:".

(** The f-string [f"{message['role']}: {message['content']}"]. *)
Definition render (message : message) : pystr :=
  role message ++ py ": " ++ content message.

(** [' '.join([... for message in history[:-1]])]. *)
Definition summarize_user_prompt (history : list message) : pystr :=
  join (py " ") (List.map render (removelast history)).

Definition summarize_chat_history : M (list message) :=
  enter m_summarize_chat_history ;;
  self <- get ;;
  let system_prompt := summarize_system_prompt in
  let user_prompt := summarize_user_prompt (summarized_message_history self) in
  response <- gpt4_one_shot system_prompt user_prompt false default_model ;;
  ret [ {| role := py "system"; content := response |} ].

Definition manage_context_window : M (list message) :=
  enter m_manage_context_window ;;
  self <- get ;;
  (if token_threshold_to_trigger_summarization self
        <=? calculate_total_tokens (summarized_message_history self)
   then
     summarized_history <- summarize_chat_history ;;
     self <- get ;;
     latest <- index_last (summarized_message_history self) ;;
     put (set_histories self (full_message_history self)
                        (summarized_history ++ [latest]))
   else ret tt) ;;
  self <- get ;;
  ret (summarized_message_history self).

Definition invalid_role : pystr :=
  py "Invalid role provided. Valid roles are 'user', 'assistant', or 'system'.".

Definition send_message (prompt role : pystr) (json_response : bool) : M pystr :=
  enter m_send_message ;;
  (if eqb role (py "user")
   then add_message_to_history {| role := py "user"; content := prompt |}
   else if eqb role (py "assistant")
   then add_message_to_history {| role := py "assistant"; content := prompt |}
   else if eqb role (py "system")
   then add_message_to_history {| role := py "system"; content := prompt |}
   else raise (ValueError invalid_role)) ;;
  context_window <- manage_context_window ;;
  response <- gpt4_conversation context_window false default_model ;;
  ai_message <- index_first (choices response) ;;
  add_message_to_history {| role := py "assistant"; content := ai_message |} ;;
  ret ai_message.

(* ================================================================= *)
(** ** Callers *)

(** One call of a method by the host application. *)
Inductive op : Type :=
| op_add_message_to_history (message : message)
| op_calculate_total_tokens (messages : list message)
| op_summarize_chat_history
| op_manage_context_window
| op_send_message (prompt role : pystr) (json_response : bool)
| op_gpt4_conversation (messages : list message) (json_response : bool) (model : pystr)
| op_gpt4_one_shot (system_prompt user_prompt : pystr) (json_response : bool) (model : pystr).

Definition forget {A : Type} (m : M A) : M unit := _ <- m ;; ret tt.

Definition call (o : op) : M unit :=
  match o with
  | op_add_message_to_history message => add_message_to_history message
  | op_calculate_total_tokens messages =>
      let _ := calculate_total_tokens messages in ret tt
  | op_summarize_chat_history => forget summarize_chat_history
  | op_manage_context_window => forget manage_context_window
  | op_send_message prompt role json_response =>
      forget (send_message prompt role json_response)
  | op_gpt4_conversation messages json_response model =>
      forget (gpt4_conversation messages json_response model)
  | op_gpt4_one_shot system_prompt user_prompt json_response model =>
      forget (gpt4_one_shot system_prompt user_prompt json_response model)
  end.

(** A session: the host makes the calls one after the other on the same
    object and goes on after a call that raised. *)
Fixpoint session (ops : list op) (self : llm) : prog llm :=
  match ops with
  | [] => Done self
  | o :: ops' => pbind (call o self) (fun sr => session ops' (fst sr))
  end.

(** [n] calls of the same method in a row, collecting what they return. *)
Fixpoint repeatedly {A : Type} (n : nat) (m : M A) : M (list A) :=
  match n with
  | O => ret []
  | S n' => a <- m ;; rest <- repeatedly n' m ;; ret (a :: rest)
  end.

(** [l1] is a prefix of [l2]. *)
Definition prefix {A : Type} (l1 l2 : list A) : Prop :=
  exists rest, l2 = l1 ++ rest.

(** The sum of the word counts of the contents, as the estimator is
    described: whitespace-delimited words, message by message. *)
Definition sum_of_word_counts (messages : list message) : Z :=
  Z.of_nat (list_sum (List.map (fun m => word_count (content m)) messages)).

(** The message with [extra] text concatenated before and after its
    content. *)
Definition extend_content (before : pystr) (m : message) (after : pystr) : message :=
  {| role := role m; content := before ++ content m ++ after |}.

(** The request the Summarizer sends for the object's active history. *)
Definition summarize_request (self : llm) : request :=
  one_shot_request summarize_system_prompt
    (summarize_user_prompt (summarized_message_history self)) false default_model.

(** The request [send_message] sends for a context window. *)
Definition conversation_request (context_window : list message) : request :=
  {| model := default_model;
     temperature := 79 # 100;
     max_tokens := 4096;
     response_format := None;
     messages := context_window |}.

Definition valid_roles : list pystr := [py "user"; py "assistant"; py "system"].

(** The object once [message] has been added to both histories. *)
Definition appended (self : llm) (message : message) : llm :=
  set_histories self
    (full_message_history self ++ [message])
    (summarized_message_history self ++ [message]).

(** A method body that can only extend the verbatim history: however
    it finishes, by returning or by raising, the verbatim history it
    started with is a prefix of the one it leaves. *)
Definition extends {A : Type} (m : M A) : Prop :=
  forall self : llm,
    leaves (fun sr => prefix (full_message_history self) (full_message_history (fst sr)))
           (m self).

(** The builder called the Summarizer during a run. *)
Definition summarizer_invoked (t : list event) : Prop :=
  In (EvEnter m_summarize_chat_history) t.

(* ================================================================= *)
(** ** Test doubles and sample conversations *)

Module TestDouble.

(** A service that answers from a script, one reply per request, and
    raises once the script is used up. *)
Definition scripted (script : list reply) (rq : request) : list reply * reply :=
  match script with
  | [] => ([], inl (ClientError (py "no reply scripted")))
  | a :: rest => (rest, a)
  end.

Definition completion (text : pystr) (total : Z) : reply :=
  inr {| choices := [text]; total_tokens := total |}.

Definition fresh (threshold : Z) : llm :=
  {| full_message_history := [];
     summarized_message_history := [];
     DEBUG := false;
     token_threshold_to_trigger_summarization := threshold |}.

Definition with_history (threshold : Z) (history : list message) : llm :=
  {| full_message_history := history;
     summarized_message_history := history;
     DEBUG := false;
     token_threshold_to_trigger_summarization := threshold |}.

(** Three turns, twelve words. *)
Definition three_turns : list message :=
  [ {| role := py "user"; content := py "a b c" |};
    {| role := py "assistant"; content := py "d e f" |};
    {| role := py "user"; content := py "g h i j k l" |} ].

Definition scenario2 : llm := with_history 5 three_turns.

(** One message of [n] one-letter words. *)
Definition long_message (n : nat) : message :=
  {| role := py "user"; content := List.concat (repeat (py "a ") n) |}.

End TestDouble.

(* ================================================================= *)
(** ** Invariants, outcomes and request counts *)

(** A method body that keeps [I]: started on an object with [I], it
    leaves an object with [I] however it finishes. *)
Definition keeps {A : Type} (I : llm -> Prop) (m : M A) : Prop :=
  forall self : llm, I self -> leaves (fun sr => I (fst sr)) (m self).

(** The object once the active history has been replaced by the
    summary [text] and the message [latest]. *)
Definition compressed (self : llm) (text : pystr) (latest : message) : llm :=
  set_histories self (full_message_history self)
    [ {| role := py "system"; content := text |}; latest ].

(** The active history follows the verbatim one: it is the verbatim
    history itself, or one system summary followed by the most recent
    verbatim messages (at least one). *)
Definition tracks_verbatim (self : llm) : Prop :=
  summarized_message_history self = full_message_history self
  \/ exists (text : pystr) (older recent : list message),
       recent <> []
       /\ summarized_message_history self
          = {| role := py "system"; content := text |} :: recent
       /\ full_message_history self = older ++ recent.

(** The last element of a history, if any. *)
Definition latest_of (history : list message) : option message :=
  hd_error (rev history).

(** The requests of a run. *)
Fixpoint count_requests (t : list event) : nat :=
  match t with
  | [] => O
  | EvCreate _ _ :: t' => S (count_requests t')
  | EvEnter _ :: t' => count_requests t'
  end.

(** On every path through the tree, the number of requests sent
    satisfies [P]. *)
Fixpoint counts {R : Type} (P : nat -> Prop) (p : prog R) : Prop :=
  match p with
  | Done _ => P O
  | Enter _ p' => counts P p'
  | Create _ k => forall a, counts (fun n => P (S n)) (k a)
  end.

(** Every code point of the text is white space. *)
Definition blank (s : pystr) : bool := forallb isspace s.

(* ================================================================= *)
(** * Properties *)

(** ** Strings *)

Lemma eqb_eq (a b : pystr) : eqb a b = true <-> a = b.
Proof.
  unfold eqb. destruct (list_eq_dec N.eq_dec a b); split; congruence.
Qed.

Lemma eqb_neq (a b : pystr) : eqb a b = false <-> a <> b.
Proof.
  unfold eqb. destruct (list_eq_dec N.eq_dec a b); split; congruence.
Qed.

Example split_example :
  split (py "  g h  i j ") = [py "g"; py "h"; py "i"; py "j"].
Proof. reflexivity. Qed.

Example split_tab_newline :
  split (py "a" ++ [9%N] ++ py "b" ++ [10%N; 160%N] ++ py "c") = [py "a"; py "b"; py "c"].
Proof. reflexivity. Qed.

Example join_example :
  join (py " ") [py "user: a"; py "assistant: b"] = py "user: a assistant: b".
Proof. reflexivity. Qed.

Lemma forallb_rev_true {A : Type} (f : A -> bool) (l : list A) :
  forallb f l = true -> forallb f (rev l) = true.
Proof.
  rewrite !forallb_forall. intros H x Hx. apply H. now apply in_rev.
Qed.

Example init_without_key : exists msg, init [] = inl (ValueError msg).
Proof. eexists. reflexivity. Qed.

Example init_with_key : init (py "sk-test") = inr (TestDouble.fresh 1024).
Proof. reflexivity. Qed.

(** The words [split] returns are the maximal runs of non-space code
    points: none is empty, none holds a space, and together they are
    the text with its spaces removed. *)
Lemma split_from_words (cur s : pystr) :
  forallb (fun c => negb (isspace c)) cur = true ->
  Forall (fun w => w <> [] /\ forallb (fun c => negb (isspace c)) w = true)
         (split_from cur s).
Proof.
  revert cur. induction s as [|c s IH]; intros cur Hcur; simpl.
  - destruct cur as [|x cur]; constructor; [|constructor].
    split.
    + intro H. apply (f_equal (@List.length N)) in H.
      simpl in H. rewrite length_app in H. simpl in H. lia.
    + apply forallb_rev_true. exact Hcur.
  - destruct (isspace c) eqn:Hc.
    + destruct cur as [|x cur]; [now apply IH|].
      constructor; [|now apply IH].
      split.
      * intro H. apply (f_equal (@List.length N)) in H.
        simpl in H. rewrite length_app in H. simpl in H. lia.
      * apply forallb_rev_true. exact Hcur.
    + apply IH. simpl. now rewrite Hc.
Qed.

Lemma split_words (s : pystr) :
  Forall (fun w => w <> [] /\ forallb (fun c => negb (isspace c)) w = true) (split s).
Proof. now apply split_from_words. Qed.

Lemma split_from_concat (cur s : pystr) :
  concat (split_from cur s) = rev cur ++ filter (fun c => negb (isspace c)) s.
Proof.
  revert cur. induction s as [|c s IH]; intros cur; simpl.
  - destruct cur; simpl; now rewrite ?app_nil_r.
  - destruct (isspace c) eqn:Hc; simpl.
    + destruct cur as [|x cur]; simpl; rewrite IH; reflexivity.
    + rewrite IH. simpl. now rewrite <- app_assoc.
Qed.

Lemma split_concat (s : pystr) :
  concat (split s) = filter (fun c => negb (isspace c)) s.
Proof. apply split_from_concat. Qed.

(** ** The token estimator *)

Lemma length_split_from (cur s : pystr) :
  List.length (split_from cur s)
  = match cur with
    | [] => word_starts true s
    | _ => S (word_starts false s)
    end.
Proof.
  revert cur. induction s as [|c s IH]; intros cur; simpl.
  - now destruct cur.
  - destruct (isspace c) eqn:Hc; simpl.
    + destruct cur; simpl; now rewrite IH.
    + rewrite IH. now destruct cur.
Qed.

Lemma length_split (s : pystr) : List.length (split s) = word_count s.
Proof. apply length_split_from. Qed.

Lemma fold_left_tokens (messages : list message) (acc : Z) :
  fold_left (fun acc message => acc + Z.of_nat (List.length (split (content message))))
            messages acc
  = acc + sum_of_word_counts messages.
Proof.
  unfold sum_of_word_counts.
  revert acc. induction messages as [|m ms IH]; intros acc; simpl.
  - lia.
  - rewrite IH, length_split. lia.
Qed.

Lemma calculate_total_tokens_sum (messages : list message) :
  calculate_total_tokens messages = sum_of_word_counts messages.
Proof. unfold calculate_total_tokens. now rewrite fold_left_tokens. Qed.

Lemma sum_of_word_counts_app (l1 l2 : list message) :
  sum_of_word_counts (l1 ++ l2) = sum_of_word_counts l1 + sum_of_word_counts l2.
Proof.
  unfold sum_of_word_counts. rewrite map_app, list_sum_app. lia.
Qed.

Lemma sum_of_word_counts_cons (m : message) (l : list message) :
  sum_of_word_counts (m :: l) = Z.of_nat (word_count (content m)) + sum_of_word_counts l.
Proof. unfold sum_of_word_counts. simpl. lia. Qed.

(** Whether a text read from a position with flag [b] ends "after a
    space". *)
Lemma word_starts_app (b : bool) (s t : pystr) :
  word_starts b (s ++ t)
  = (word_starts b s + word_starts (last (List.map isspace s) b) t)%nat.
Proof.
  revert b. induction s as [|c s IH]; intros b.
  - reflexivity.
  - change (word_starts b ((c :: s) ++ t))
      with ((if b && negb (isspace c) then 1 else 0) + word_starts (isspace c) (s ++ t))%nat.
    rewrite IH.
    change (word_starts b (c :: s))
      with ((if b && negb (isspace c) then 1 else 0) + word_starts (isspace c) s)%nat.
    replace (last (List.map isspace (c :: s)) b) with (last (List.map isspace s) (isspace c)).
    + lia.
    + simpl. destruct (List.map isspace s) eqn:E; [reflexivity|].
      clear. revert b0. induction l as [|x l IHl]; intros b0; [reflexivity|].
      simpl. destruct l; [reflexivity|]. apply (IHl x).
Qed.

Lemma word_starts_flag (s : pystr) :
  (word_starts false s <= word_starts true s <= S (word_starts false s))%nat.
Proof. destruct s as [|c s]; simpl; [lia|]. destruct (isspace c); simpl; lia. Qed.

Lemma word_starts_ends_in_word (b : bool) (s : pystr) :
  last (List.map isspace s) b = false ->
  b = false \/ (1 <= word_starts b s)%nat.
Proof.
  revert b. induction s as [|c s IH]; intros b H.
  - left. exact H.
  - assert (H' : last (List.map isspace s) (isspace c) = false).
    { rewrite <- H. simpl. destruct (List.map isspace s) eqn:E; [reflexivity|].
      clear. revert b0. induction l as [|x l IHl]; intros b0; [reflexivity|].
      simpl. destruct l; [reflexivity|]. apply (IHl x). }
    destruct b; [right|now left].
    simpl. destruct (IH _ H') as [Hc|Hc].
    + rewrite Hc. simpl. lia.
    + lia.
Qed.

Lemma word_count_extend (before s after : pystr) :
  (word_count s <= word_count (before ++ s ++ after))%nat.
Proof.
  unfold word_count. rewrite !word_starts_app.
  pose proof (word_starts_flag s) as Hs.
  destruct (last (List.map isspace before) true) eqn:E.
  - lia.
  - destruct (word_starts_ends_in_word _ _ E) as [H|H]; [discriminate|]. lia.
Qed.

(** C8: [calculate_total_tokens] returns, for every sequence of
    messages, the sum over the messages of the whitespace-delimited
    word count of the content (the length of [split] is that count for
    every text); it is a total function to the non-negative integers,
    and it returns 0 for the empty sequence. *)
Theorem C8_calculate_total_tokens_is_word_count_sum :
  (forall s : pystr, List.length (split s) = word_count s)
  /\ (forall messages : list message,
        calculate_total_tokens messages = sum_of_word_counts messages
        /\ 0 <= calculate_total_tokens messages)
  /\ calculate_total_tokens [] = 0.
Proof.
  split; [exact length_split|]. split; [|reflexivity].
  intros messages. rewrite calculate_total_tokens_sum. split; [reflexivity|].
  unfold sum_of_word_counts. lia.
Qed.

(** C9: in any message sequence, concatenating text to the content of
    one of its messages (after it, before it, or both) never decreases
    [calculate_total_tokens]. *)
Theorem C9_calculate_total_tokens_monotone :
  forall (earlier later : list message) (m : message) (before after : pystr),
    calculate_total_tokens (earlier ++ m :: later)
    <= calculate_total_tokens (earlier ++ extend_content before m after :: later).
Proof.
  intros earlier later m before after.
  rewrite !calculate_total_tokens_sum, !sum_of_word_counts_app, !sum_of_word_counts_cons.
  pose proof (word_count_extend before (content m) after) as H.
  simpl. lia.
Qed.

(* ================================================================= *)
(** ** Running programs *)

Section RunFacts.
Variable W : Type.
Variable client : W -> request -> W * reply.

Lemma run_pbind {R S : Type} (p : prog R) (f : R -> prog S) (w : W) :
  run client (pbind p f) w
  = let o := run client p w in
    let o' := run client (f (value_of o)) (world_of o) in
    (trace_of o ++ trace_of o', world_of o', value_of o').
Proof.
  unfold trace_of, world_of, value_of.
  revert w. induction p as [r|m p IH|rq k IH]; intros w; simpl.
  - now destruct (run client (f r) w) as [[t w'] v].
  - rewrite IH. reflexivity.
  - rewrite IH. reflexivity.
Qed.

(** A call that returns: the rest of the body runs from the state and
    the world the call left. *)
Lemma run_bind_ok {A B : Type} (m : M A) (f : A -> M B) (self self1 : llm)
    (w w1 : W) (t1 : list event) (a : A) :
  run client (m self) w = (t1, w1, (self1, inr a)) ->
  run client (bind m f self) w
  = (t1 ++ trace_of (run client (f a self1) w1),
     world_of (run client (f a self1) w1),
     value_of (run client (f a self1) w1)).
Proof.
  intros H. unfold bind. rewrite run_pbind, H. reflexivity.
Qed.

(** A call that raises: the exception leaves the body at once. *)
Lemma run_bind_raise {A B : Type} (m : M A) (f : A -> M B) (self self1 : llm)
    (w w1 : W) (t1 : list event) (e : exn) :
  run client (m self) w = (t1, w1, (self1, inl e)) ->
  run client (bind m f self) w = (t1, w1, (self1, inl e)).
Proof.
  intros H. unfold bind. rewrite run_pbind, H. simpl.
  unfold trace_of, world_of, value_of. simpl. now rewrite app_nil_r.
Qed.

Lemma leaves_run {R : Type} (P : R -> Prop) (p : prog R) (w : W) :
  leaves P p -> P (value_of (run client p w)).
Proof.
  revert w. induction p as [r|m p IH|rq k IH]; intros w H; simpl in *.
  - exact H.
  - apply IH, H.
  - apply IH, H.
Qed.
End RunFacts.

Lemma leaves_pbind {R S : Type} (P : S -> Prop) (p : prog R) (f : R -> prog S) :
  leaves (fun r => leaves P (f r)) p -> leaves P (pbind p f).
Proof.
  induction p as [r|m p IH|rq k IH]; simpl; intros H.
  - exact H.
  - apply IH, H.
  - intros a. apply IH, H.
Qed.

Lemma leaves_weaken {R : Type} (P Q : R -> Prop) (p : prog R) :
  (forall r, P r -> Q r) -> leaves P p -> leaves Q p.
Proof.
  intros HPQ. induction p as [r|m p IH|rq k IH]; simpl; intros H.
  - apply HPQ, H.
  - apply IH, H.
  - intros a. apply IH, H.
Qed.

(** ** Prefixes *)

Lemma prefix_refl {A : Type} (l : list A) : prefix l l.
Proof. exists []. now rewrite app_nil_r. Qed.

Lemma prefix_app {A : Type} (l rest : list A) : prefix l (l ++ rest).
Proof. now exists rest. Qed.

Lemma prefix_trans {A : Type} (l1 l2 l3 : list A) :
  prefix l1 l2 -> prefix l2 l3 -> prefix l1 l3.
Proof.
  intros [r1 ->] [r2 ->]. exists (r1 ++ r2). now rewrite app_assoc.
Qed.

Lemma prefix_length {A : Type} (l1 l2 : list A) :
  prefix l1 l2 -> (List.length l1 <= List.length l2)%nat.
Proof. intros [r ->]. rewrite length_app. lia. Qed.

Lemma prefix_nth_error {A : Type} (l1 l2 : list A) (i : nat) (x : A) :
  prefix l1 l2 -> nth_error l1 i = Some x -> nth_error l2 i = Some x.
Proof.
  intros [r ->] H. rewrite nth_error_app1; [exact H|].
  apply nth_error_Some. congruence.
Qed.

(* ================================================================= *)
(** ** The service wrappers *)

Ltac unfold_monad :=
  unfold forget, index_first, index_last, bind, ret, raise, get, put, enter, create.

Section Wrappers.
Variable W : Type.
Variable client : W -> request -> W * reply.

(** [gpt4_one_shot] sends exactly one request and leaves the object
    alone, whatever comes back. *)
Lemma run_gpt4_one_shot (system_prompt user_prompt : pystr) (json_response : bool)
    (model : pystr) (self : llm) (w : W) :
  let rq := one_shot_request system_prompt user_prompt json_response model in
  let o := run client (gpt4_one_shot system_prompt user_prompt json_response model self) w in
  trace_of o = [EvEnter m_gpt4_one_shot; EvCreate rq (snd (client w rq))]
  /\ world_of o = fst (client w rq)
  /\ fst (value_of o) = self.
Proof.
  unfold gpt4_one_shot. unfold_monad. cbn.
  destruct (client w _) as [w1 [e|resp]]; cbn; [auto|].
  destruct (4096 <? total_tokens resp); [cbn; auto|].
  destruct (choices resp); cbn; auto.
Qed.

Lemma run_gpt4_one_shot_result (system_prompt user_prompt : pystr)
    (json_response : bool) (model : pystr) (self : llm) (w : W) (r : result pystr) :
  let rq := one_shot_request system_prompt user_prompt json_response model in
  snd (value_of (run client (gpt4_one_shot system_prompt user_prompt json_response model self) w)) = r ->
  run client (gpt4_one_shot system_prompt user_prompt json_response model self) w
  = ([EvEnter m_gpt4_one_shot; EvCreate rq (snd (client w rq))],
     fst (client w rq), (self, r)).
Proof.
  intros rq Hr.
  destruct (run_gpt4_one_shot system_prompt user_prompt json_response model self w)
    as (Ht & Hw & Hs).
  fold rq in Ht, Hw.
  destruct (run client _ w) as [[t w'] [s v]].
  unfold trace_of, world_of, value_of in *. simpl in *. congruence.
Qed.

(** A reply within the limit and with a first choice makes
    [gpt4_one_shot] return that choice's text. *)
Lemma gpt4_one_shot_returns (system_prompt user_prompt : pystr) (json_response : bool)
    (model : pystr) (self : llm) (w w1 : W) (resp : response)
    (text : pystr) (others : list pystr) :
  client w (one_shot_request system_prompt user_prompt json_response model) = (w1, inr resp) ->
  total_tokens resp <= 4096 ->
  choices resp = text :: others ->
  snd (value_of (run client (gpt4_one_shot system_prompt user_prompt json_response model self) w))
  = inr text.
Proof.
  intros Hc Ht Hch. unfold gpt4_one_shot. unfold_monad. cbn. rewrite Hc. cbn.
  replace (4096 <? total_tokens resp) with false by (symmetry; apply Z.ltb_ge; lia).
  rewrite Hch. reflexivity.
Qed.

(** [gpt4_conversation] on a reply over the limit. *)
Lemma run_gpt4_conversation_exceeded (window : list message) (json_response : bool)
    (model : pystr) (self : llm) (w w1 : W) (resp : response) :
  let rq := {| model := model; temperature := 79 # 100; max_tokens := 4096;
               response_format := json_object_format json_response;
               messages := window |} in
  client w rq = (w1, inr resp) ->
  4096 < total_tokens resp ->
  run client (gpt4_conversation window json_response model self) w
  = ([EvEnter m_gpt4_conversation; EvCreate rq (inr resp)], w1,
     (self, inl (ValueError context_window_exceeded))).
Proof.
  intros rq Hc Ht. unfold gpt4_conversation. unfold_monad. cbn.
  fold rq. rewrite Hc. cbn.
  replace (4096 <? total_tokens resp) with true by (symmetry; apply Z.ltb_lt; lia).
  reflexivity.
Qed.

(** ** The Summarizer *)

Lemma run_summarize_chat_history (self : llm) (w : W) (r : result pystr) :
  let rq := one_shot_request summarize_system_prompt
              (summarize_user_prompt (summarized_message_history self))
              false default_model in
  snd (value_of (run client
         (gpt4_one_shot summarize_system_prompt
            (summarize_user_prompt (summarized_message_history self))
            false default_model self) w)) = r ->
  run client (summarize_chat_history self) w
  = ([EvEnter m_summarize_chat_history; EvEnter m_gpt4_one_shot;
      EvCreate rq (snd (client w rq))],
     fst (client w rq),
     (self, match r with
            | inl e => inl e
            | inr text => inr [ {| role := py "system"; content := text |} ]
            end)).
Proof.
  intros rq Hr. apply run_gpt4_one_shot_result in Hr. fold rq in Hr.
  unfold summarize_chat_history.
  rewrite (run_bind_ok client (enter m_summarize_chat_history) _ self w
             (t1 := [EvEnter m_summarize_chat_history]) (a := tt) eq_refl).
  rewrite (run_bind_ok client get _ self w (t1 := []) (a := self) eq_refl).
  cbv zeta.
  destruct r as [e|text].
  - rewrite (run_bind_raise client _ _ self w Hr). reflexivity.
  - rewrite (run_bind_ok client _ _ self w Hr). reflexivity.
Qed.
End Wrappers.

(* ================================================================= *)
(** ** The context window builder *)

Lemma index_last_app {A : Type} (earlier : list A) (latest : A) :
  index_last (earlier ++ [latest]) = ret latest.
Proof. unfold index_last. now rewrite rev_app_distr. Qed.

Lemma summarize_user_prompt_app (earlier : list message) (latest : message) :
  summarize_user_prompt (earlier ++ [latest]) = join (py " ") (List.map render earlier).
Proof. unfold summarize_user_prompt. now rewrite removelast_last. Qed.

Section Builder.
Variable W : Type.
Variable client : W -> request -> W * reply.

Lemma run_manage_below (self : llm) (w : W) :
  calculate_total_tokens (summarized_message_history self)
    < token_threshold_to_trigger_summarization self ->
  run client (manage_context_window self) w
  = ([EvEnter m_manage_context_window], w,
     (self, inr (summarized_message_history self))).
Proof.
  intros H. unfold manage_context_window. unfold_monad. cbn [pbind fst snd].
  replace (_ <=? _) with false by (symmetry; apply Z.leb_gt; lia).
  reflexivity.
Qed.

Lemma run_manage_above (self : llm) (w : W) (r : result pystr) :
  token_threshold_to_trigger_summarization self
    <= calculate_total_tokens (summarized_message_history self) ->
  snd (value_of (run client
         (gpt4_one_shot summarize_system_prompt
            (summarize_user_prompt (summarized_message_history self))
            false default_model self) w)) = r ->
  let rq := summarize_request self in
  let a := snd (client w rq) in
  let t := [EvEnter m_manage_context_window; EvEnter m_summarize_chat_history;
            EvEnter m_gpt4_one_shot; EvCreate rq a] in
  run client (manage_context_window self) w
  = (t, fst (client w rq),
     match r with
     | inl e => (self, inl e)
     | inr text =>
         match rev (summarized_message_history self) with
         | [] => (self, inl (IndexError (py "list index out of range")))
         | latest :: _ =>
             let window := [ {| role := py "system"; content := text |}; latest ] in
             (set_histories self (full_message_history self) window, inr window)
         end
     end).
Proof.
  intros Hge Hr rq a t.
  apply run_summarize_chat_history in Hr. fold (summarize_request self) in Hr.
  fold rq in Hr. fold a in Hr.
  unfold manage_context_window.
  rewrite (run_bind_ok client (enter m_manage_context_window) _ self w
             (t1 := [EvEnter m_manage_context_window]) (a := tt) eq_refl).
  rewrite (run_bind_ok client get _ self w (t1 := []) (a := self) eq_refl).
  replace (_ <=? _) with true by (symmetry; apply Z.leb_le; lia).
  destruct r as [e|text].
  - assert (Hin : run client
              ((summarized_history <- summarize_chat_history ;;
                self0 <- get ;;
                latest <- index_last (summarized_message_history self0) ;;
                put (set_histories self0 (full_message_history self0)
                       (summarized_history ++ [latest]))) self) w
            = (trace_of (run client (summarize_chat_history self) w),
               fst (client w rq), (self, inl e))).
    { rewrite (run_bind_raise client _ _ self w Hr). now rewrite Hr. }
    rewrite (run_bind_raise client _ _ self w Hin). rewrite Hr. reflexivity.
  - assert (Hin : run client
              ((summarized_history <- summarize_chat_history ;;
                self0 <- get ;;
                latest <- index_last (summarized_message_history self0) ;;
                put (set_histories self0 (full_message_history self0)
                       (summarized_history ++ [latest]))) self) w
            = (trace_of (run client (summarize_chat_history self) w),
               fst (client w rq),
               match rev (summarized_message_history self) with
               | [] => (self, inl (IndexError (py "list index out of range")))
               | latest :: _ =>
                   (set_histories self (full_message_history self)
                      [ {| role := py "system"; content := text |}; latest ], inr tt)
               end)).
    { rewrite (run_bind_ok client _ _ self w Hr). rewrite Hr.
      unfold_monad. cbn [pbind fst snd].
      destruct (rev (summarized_message_history self)); reflexivity. }
    destruct (rev (summarized_message_history self)) as [|latest others].
    + rewrite (run_bind_raise client _ _ self w Hin). rewrite Hr. reflexivity.
    + rewrite (run_bind_ok client _ _ self w Hin). rewrite Hr. reflexivity.
Qed.
End Builder.

(** However the builder finishes, the verbatim history is the one it
    started with, and the active history is either untouched or the
    two-element compression ending in the previous last message. *)
Lemma manage_context_window_leaves (self : llm) :
  leaves (fun sr =>
            full_message_history (fst sr) = full_message_history self
            /\ (summarized_message_history (fst sr) = summarized_message_history self
                \/ exists text earlier latest,
                     summarized_message_history self = earlier ++ [latest]
                     /\ summarized_message_history (fst sr)
                        = [ {| role := py "system"; content := text |}; latest ]))
         (manage_context_window self).
Proof.
  unfold manage_context_window, summarize_chat_history, gpt4_one_shot.
  unfold_monad. cbn [pbind leaves fst snd].
  destruct (_ <=? _); cbn [pbind leaves fst snd]; [|auto].
  intros [e|resp]; cbn [pbind leaves fst snd]; [auto|].
  destruct (4096 <? total_tokens resp); cbn [pbind leaves fst snd]; [auto|].
  destruct (choices resp) as [|text others]; cbn [pbind leaves fst snd]; [auto|].
  destruct (rev (summarized_message_history self)) as [|latest others'] eqn:Hrev;
    cbn [pbind leaves fst snd]; [auto|].
  split; [reflexivity|]. right. exists text, (rev others'), latest. split; [|reflexivity].
  rewrite <- (rev_involutive (summarized_message_history self)), Hrev. reflexivity.
Qed.


(** A positive threshold can only be reached by a history that has a
    last message. *)
Lemma over_threshold_has_latest (history : list message) (threshold : Z) :
  0 < threshold ->
  threshold <= calculate_total_tokens history ->
  exists earlier latest, history = earlier ++ [latest].
Proof.
  intros Hpos Hge. destruct history as [|m ms].
  - cbn in Hge. lia.
  - destruct (exists_last (l := m :: ms)) as (earlier & latest & ->); [discriminate|].
    now exists earlier, latest.
Qed.

(** With a threshold of 0 or less the builder also fires on an empty
    active history: the Summarizer is called and [history[-1]] then
    raises; the object is left as it was. *)
Lemma run_manage_empty_history (W : Type) (client : W -> request -> W * reply)
    (w : W) (self : llm) (text : pystr) :
  token_threshold_to_trigger_summarization self <= 0 ->
  summarized_message_history self = [] ->
  snd (value_of (run client
         (gpt4_one_shot summarize_system_prompt [] false default_model self) w))
    = inr text ->
  value_of (run client (manage_context_window self) w)
  = (self, inl (IndexError (py "list index out of range"))).
Proof.
  intros Hle Hnil Hsum.
  assert (Hge : token_threshold_to_trigger_summarization self
                <= calculate_total_tokens (summarized_message_history self)).
  { rewrite Hnil. cbn. exact Hle. }
  assert (Hsum' : snd (value_of (run client
            (gpt4_one_shot summarize_system_prompt
               (summarize_user_prompt (summarized_message_history self))
               false default_model self) w)) = inr text).
  { rewrite Hnil. exact Hsum. }
  rewrite (run_manage_above client self w Hge Hsum'). rewrite Hnil. reflexivity.
Qed.

(** C1: when the estimate of the active history is at or above the
    threshold and the Summarizer's one-shot call returns [text] for the
    rendering of all messages but the last, [manage_context_window]
    returns and leaves as active history exactly two messages: the
    system message holding [text], then the previous last message as it
    was.  The verbatim history is not touched. *)
Theorem C1_compression_leaves_summary_and_latest :
  forall (W : Type) (client : W -> request -> W * reply) (w : W) (self : llm)
         (earlier : list message) (latest : message) (text : pystr),
    token_threshold_to_trigger_summarization self
      <= calculate_total_tokens (summarized_message_history self) ->
    summarized_message_history self = earlier ++ [latest] ->
    snd (value_of (run client
           (gpt4_one_shot summarize_system_prompt
              (join (py " ") (List.map render earlier)) false default_model self) w))
      = inr text ->
    let window := [ {| role := py "system"; content := text |}; latest ] in
    exists self',
      value_of (run client (manage_context_window self) w) = (self', inr window)
      /\ summarized_message_history self' = window
      /\ full_message_history self' = full_message_history self.
Proof.
  intros W client w self earlier latest text Hge Hlast Hsum window.
  rewrite <- summarize_user_prompt_app with (latest := latest) in Hsum.
  rewrite <- Hlast in Hsum.
  rewrite (run_manage_above client self w Hge Hsum).
  rewrite Hlast, rev_app_distr. cbn [rev app value_of snd].
  eexists. split; [reflexivity|]. split; reflexivity.
Qed.

(** The second scenario of the design: threshold 5, three turns of
    twelve words, a service that answers "summary". *)
Lemma C1_witness :
  (token_threshold_to_trigger_summarization TestDouble.scenario2
     <= calculate_total_tokens (summarized_message_history TestDouble.scenario2))
  /\ exists self',
       value_of (run TestDouble.scripted (manage_context_window TestDouble.scenario2)
                     [TestDouble.completion (py "summary") 100])
       = (self', inr [ {| role := py "system"; content := py "summary" |};
                       {| role := py "user"; content := py "g h i j k l" |} ])
       /\ summarized_message_history self'
          = [ {| role := py "system"; content := py "summary" |};
              {| role := py "user"; content := py "g h i j k l" |} ]
       /\ full_message_history self' = TestDouble.three_turns.
Proof.
  split; [vm_compute; discriminate|].
  apply (@C1_compression_leaves_summary_and_latest _ TestDouble.scripted
           [TestDouble.completion (py "summary") 100] TestDouble.scenario2
           [ {| role := py "user"; content := py "a b c" |};
             {| role := py "assistant"; content := py "d e f" |} ]
           {| role := py "user"; content := py "g h i j k l" |} (py "summary")).
  - vm_compute. discriminate.
  - reflexivity.
  - reflexivity.
Defined.

(** The builder calls the Summarizer exactly when the estimate has
    reached the threshold; the number of messages plays no part. *)
Lemma summarizer_invoked_iff (W : Type) (client : W -> request -> W * reply)
    (w : W) (self : llm) :
  summarizer_invoked (trace_of (run client (manage_context_window self) w))
  <-> token_threshold_to_trigger_summarization self
        <= calculate_total_tokens (summarized_message_history self).
Proof.
  destruct (Z_lt_le_dec (calculate_total_tokens (summarized_message_history self))
                        (token_threshold_to_trigger_summarization self)) as [Hlt|Hge].
  - rewrite (run_manage_below client self w Hlt). unfold summarizer_invoked. cbn.
    split; [|lia]. intros [H|[]]. discriminate.
  - rewrite (run_manage_above client self w Hge eq_refl).
    unfold summarizer_invoked. cbn. split; [intros _; exact Hge|]. auto.
Qed.

(** C2 does not hold as stated: with the default threshold 1024, an
    active history of one message of 1024 words makes the builder call
    the Summarizer, which sends the service an empty dialogue. *)
Lemma C2_single_long_message_is_summarized :
  (List.length (summarized_message_history
                  (TestDouble.with_history 1024 [TestDouble.long_message 1024])) < 2)%nat
  /\ trace_of (run TestDouble.scripted
                 (manage_context_window
                    (TestDouble.with_history 1024 [TestDouble.long_message 1024]))
                 [TestDouble.completion (py "summary") 100])
     = [ EvEnter m_manage_context_window; EvEnter m_summarize_chat_history;
         EvEnter m_gpt4_one_shot;
         EvCreate (one_shot_request summarize_system_prompt [] false default_model)
                  (TestDouble.completion (py "summary") 100) ]
  /\ summarizer_invoked
       (trace_of (run TestDouble.scripted
                    (manage_context_window
                       (TestDouble.with_history 1024 [TestDouble.long_message 1024]))
                    [TestDouble.completion (py "summary") 100])).
Proof.
  split; [cbn; lia|].
  assert (Ht : trace_of (run TestDouble.scripted
                 (manage_context_window
                    (TestDouble.with_history 1024 [TestDouble.long_message 1024]))
                 [TestDouble.completion (py "summary") 100])
     = [ EvEnter m_manage_context_window; EvEnter m_summarize_chat_history;
         EvEnter m_gpt4_one_shot;
         EvCreate (one_shot_request summarize_system_prompt [] false default_model)
                  (TestDouble.completion (py "summary") 100) ]).
  { vm_compute. reflexivity. }
  split; [exact Ht|]. rewrite Ht. unfold summarizer_invoked. cbn. auto.
Qed.

(** C2, amended: for an active history of fewer than two messages the
    builder calls the Summarizer exactly when the estimated token count
    is at or above the threshold; below the threshold it never does. *)
Theorem C2_short_history_summarized_iff_over_threshold :
  forall (W : Type) (client : W -> request -> W * reply) (w : W) (self : llm),
    (List.length (summarized_message_history self) < 2)%nat ->
    (summarizer_invoked (trace_of (run client (manage_context_window self) w))
     <-> token_threshold_to_trigger_summarization self
           <= calculate_total_tokens (summarized_message_history self)).
Proof.
  intros W client w self _. apply summarizer_invoked_iff.
Qed.

Lemma C2_witness :
  (List.length (summarized_message_history
                  (TestDouble.with_history 50 [TestDouble.long_message 3])) < 2)%nat
  /\ (summarizer_invoked
        (trace_of (run TestDouble.scripted
                     (manage_context_window
                        (TestDouble.with_history 50 [TestDouble.long_message 3]))
                     []))
      <-> 50 <= calculate_total_tokens [TestDouble.long_message 3]).
Proof.
  split; [cbn; lia|].
  apply (@C2_short_history_summarized_iff_over_threshold _ TestDouble.scripted []
           (TestDouble.with_history 50 [TestDouble.long_message 3])).
  cbn. lia.
Defined.

(** ** Below the threshold *)

Lemma run_repeatedly_below (W : Type) (client : W -> request -> W * reply)
    (w : W) (self : llm) (n : nat) :
  calculate_total_tokens (summarized_message_history self)
    < token_threshold_to_trigger_summarization self ->
  run client (repeatedly n manage_context_window self) w
  = (repeat (EvEnter m_manage_context_window) n, w,
     (self, inr (repeat (summarized_message_history self) n))).
Proof.
  intros Hlt. induction n as [|n IH]; [reflexivity|].
  cbn [repeatedly].
  rewrite (run_bind_ok client _ _ self w (run_manage_below client self w Hlt)).
  rewrite (run_bind_ok client _ _ self w IH).
  cbn. now rewrite app_nil_r.
Qed.

(** C3: when the estimate of the active history is strictly below the
    threshold, [manage_context_window] returns the active history as it
    is and changes nothing in the object; the run enters no other
    method and sends no request (no summarization); and any number of
    calls in a row return the same sequence each time. *)
Theorem C3_below_threshold_unchanged :
  forall (W : Type) (client : W -> request -> W * reply) (w : W) (self : llm),
    calculate_total_tokens (summarized_message_history self)
      < token_threshold_to_trigger_summarization self ->
    run client (manage_context_window self) w
    = ([EvEnter m_manage_context_window], w,
       (self, inr (summarized_message_history self)))
    /\ forall n : nat,
         run client (repeatedly n manage_context_window self) w
         = (repeat (EvEnter m_manage_context_window) n, w,
            (self, inr (repeat (summarized_message_history self) n))).
Proof.
  intros W client w self Hlt. split.
  - now apply run_manage_below.
  - intros n. now apply run_repeatedly_below.
Qed.

(** The first scenario of the design: threshold 50, twelve words. *)
Lemma C3_witness :
  calculate_total_tokens TestDouble.three_turns < 50
  /\ run TestDouble.scripted
         (manage_context_window (TestDouble.with_history 50 TestDouble.three_turns)) []
     = ([EvEnter m_manage_context_window], [],
        (TestDouble.with_history 50 TestDouble.three_turns, inr TestDouble.three_turns))
  /\ run TestDouble.scripted
         (repeatedly 3 manage_context_window
            (TestDouble.with_history 50 TestDouble.three_turns)) []
     = (repeat (EvEnter m_manage_context_window) 3, [],
        (TestDouble.with_history 50 TestDouble.three_turns,
         inr (repeat TestDouble.three_turns 3))).
Proof.
  split; [vm_compute; reflexivity|].
  destruct (@C3_below_threshold_unchanged _ TestDouble.scripted []
              (TestDouble.with_history 50 TestDouble.three_turns))
    as [H1 H2].
  - vm_compute. reflexivity.
  - split; [exact H1|exact (H2 3%nat)].
Defined.

(* ================================================================= *)
(** ** The conversation driver *)

Lemma role_dispatch (role prompt : pystr) :
  In role valid_roles ->
  (if eqb role (py "user")
   then add_message_to_history {| role := py "user"; content := prompt |}
   else if eqb role (py "assistant")
   then add_message_to_history {| role := py "assistant"; content := prompt |}
   else if eqb role (py "system")
   then add_message_to_history {| role := py "system"; content := prompt |}
   else raise (ValueError invalid_role))
  = add_message_to_history {| role := role; content := prompt |}.
Proof.
  intros [H|[H|[H|[]]]]; subst role; reflexivity.
Qed.

Lemma role_rejected (role : pystr) :
  ~ In role valid_roles ->
  eqb role (py "user") = false
  /\ eqb role (py "assistant") = false
  /\ eqb role (py "system") = false.
Proof.
  intros H. repeat split; apply eqb_neq; intros ->; apply H; cbn; auto.
Qed.

Section Driver.
Variable W : Type.
Variable client : W -> request -> W * reply.

Lemma run_add_message_to_history (msg : message) (self : llm) (w : W) :
  run client (add_message_to_history msg self) w
  = ([EvEnter m_add_message_to_history], w, (appended self msg, inr tt)).
Proof. reflexivity. Qed.

(** The builder raising inside [send_message]. *)
Lemma run_send_message_builder_raises (prompt role : pystr) (json_response : bool)
    (self self1 : llm) (w w1 : W) (t1 : list event) (e : exn) :
  In role valid_roles ->
  run client (manage_context_window (appended self {| role := role; content := prompt |})) w
    = (t1, w1, (self1, inl e)) ->
  run client (send_message prompt role json_response self) w
  = (EvEnter m_send_message :: EvEnter m_add_message_to_history :: t1, w1,
     (self1, inl e)).
Proof.
  intros Hrole Hm. unfold send_message. rewrite (role_dispatch prompt Hrole).
  rewrite (run_bind_ok client (enter m_send_message) _ self w
             (t1 := [EvEnter m_send_message]) (a := tt) eq_refl).
  rewrite (run_bind_ok client _ _ self w (run_add_message_to_history _ self w)).
  rewrite (run_bind_raise client _ _ _ w Hm). reflexivity.
Qed.

(** The multi-turn call reporting more than 4096 tokens. *)
Lemma run_send_message_exceeded (prompt role : pystr) (json_response : bool)
    (self self1 : llm) (w w1 w2 : W) (t1 : list event) (window : list message)
    (resp : response) :
  In role valid_roles ->
  run client (manage_context_window (appended self {| role := role; content := prompt |})) w
    = (t1, w1, (self1, inr window)) ->
  client w1 (conversation_request window) = (w2, inr resp) ->
  4096 < total_tokens resp ->
  run client (send_message prompt role json_response self) w
  = (EvEnter m_send_message :: EvEnter m_add_message_to_history :: t1
       ++ [EvEnter m_gpt4_conversation; EvCreate (conversation_request window) (inr resp)],
     w2, (self1, inl (ValueError context_window_exceeded))).
Proof.
  intros Hrole Hm Hc Ht. unfold send_message. rewrite (role_dispatch prompt Hrole).
  rewrite (run_bind_ok client (enter m_send_message) _ self w
             (t1 := [EvEnter m_send_message]) (a := tt) eq_refl).
  rewrite (run_bind_ok client _ _ self w (run_add_message_to_history _ self w)).
  rewrite (run_bind_ok client _ _ _ w Hm).
  rewrite (run_bind_raise client _ _ self1 w1
             (run_gpt4_conversation_exceeded client window false default_model self1 w1 Hc Ht)).
  reflexivity.
Qed.
End Driver.

(** C4: when the estimate has reached the threshold and the
    Summarizer's one-shot call raises [e], [manage_context_window]
    raises [e] and the object, with both histories, is what it was when
    the call was made; a [send_message] that reached the builder in
    that state (its message already appended) raises [e] as well and
    leaves the object in that same state: the active history is
    replaced only after the Summarizer has returned. *)
Theorem C4_summarizer_failure_propagates :
  forall (W : Type) (client : W -> request -> W * reply) (w : W) (self : llm) (e : exn),
    token_threshold_to_trigger_summarization self
      <= calculate_total_tokens (summarized_message_history self) ->
    snd (value_of (run client
           (gpt4_one_shot summarize_system_prompt
              (summarize_user_prompt (summarized_message_history self))
              false default_model self) w)) = inl e ->
    value_of (run client (manage_context_window self) w) = (self, inl e)
    /\ forall (before : llm) (prompt role : pystr) (json_response : bool),
         In role valid_roles ->
         self = appended before {| role := role; content := prompt |} ->
         value_of (run client (send_message prompt role json_response before) w)
         = (self, inl e).
Proof.
  intros W client w self e Hge Hfail.
  pose proof (run_manage_above client self w Hge Hfail) as Hm. cbv zeta in Hm.
  split.
  - rewrite Hm. reflexivity.
  - intros before prompt role json_response Hrole Hself. subst self.
    erewrite run_send_message_builder_raises; [reflexivity|exact Hrole|exact Hm].
Qed.

(** A service error on the Summarizer's request, third scenario turned
    into a failure: threshold 5, twelve words, the service raises. *)
Lemma C4_witness :
  (token_threshold_to_trigger_summarization TestDouble.scenario2
     <= calculate_total_tokens (summarized_message_history TestDouble.scenario2))
  /\ value_of (run TestDouble.scripted (manage_context_window TestDouble.scenario2)
                   [inl (ClientError (py "service unavailable"))])
     = (TestDouble.scenario2, inl (ClientError (py "service unavailable")))
  /\ value_of (run TestDouble.scripted
                   (send_message (py "g h i j k l") (py "user") false
                      (TestDouble.with_history 5
                         [ {| role := py "user"; content := py "a b c" |};
                           {| role := py "assistant"; content := py "d e f" |} ]))
                   [inl (ClientError (py "service unavailable"))])
     = (TestDouble.scenario2, inl (ClientError (py "service unavailable"))).
Proof.
  split; [vm_compute; discriminate|].
  destruct (@C4_summarizer_failure_propagates _ TestDouble.scripted
              [inl (ClientError (py "service unavailable"))]
              TestDouble.scenario2 (ClientError (py "service unavailable")))
    as [H1 H2].
  - vm_compute. discriminate.
  - reflexivity.
  - split; [exact H1|]. apply H2; [cbn; auto|reflexivity].
Defined.

(** C5: for every role other than 'user', 'assistant' and 'system',
    [send_message] does nothing but raise the invalid-role
    [ValueError]: no request is sent and the object, with both
    histories, is the one it was called on. *)
Theorem C5_invalid_role_rejected :
  forall (prompt role : pystr) (json_response : bool) (self : llm),
    ~ In role valid_roles ->
    send_message prompt role json_response self
    = Enter m_send_message (Done (self, inl (ValueError invalid_role))).
Proof.
  intros prompt role json_response self H.
  destruct (role_rejected H) as (H1 & H2 & H3).
  unfold send_message. rewrite H1, H2, H3. reflexivity.
Qed.

Lemma C5_witness :
  ~ In (py "bogus") valid_roles
  /\ send_message (py "hello") (py "bogus") false TestDouble.scenario2
     = Enter m_send_message (Done (TestDouble.scenario2, inl (ValueError invalid_role))).
Proof.
  assert (H : ~ In (py "bogus") valid_roles).
  { intros [H|[H|[H|[]]]]; discriminate H. }
  split; [exact H|].
  exact (@C5_invalid_role_rejected (py "hello") (py "bogus") false TestDouble.scenario2 H).
Defined.

(** C6: when the builder has returned the window and the multi-turn
    call for it reports more than 4096 total tokens, [send_message]
    raises the context-window-exceeded [ValueError]; the message
    appended at the start is the last element of both histories, so no
    assistant message was appended after it: the verbatim history is
    the previous one plus that message, and the active history is the
    previous one plus that message or its compression ending in it. *)
Theorem C6_context_window_exceeded :
  forall (W : Type) (client : W -> request -> W * reply) (w w1 w2 : W)
         (self self1 : llm) (prompt role : pystr) (json_response : bool)
         (t1 : list event) (window : list message) (resp : response),
    In role valid_roles ->
    run client (manage_context_window (appended self {| role := role; content := prompt |})) w
      = (t1, w1, (self1, inr window)) ->
    client w1 (conversation_request window) = (w2, inr resp) ->
    4096 < total_tokens resp ->
    value_of (run client (send_message prompt role json_response self) w)
      = (self1, inl (ValueError context_window_exceeded))
    /\ full_message_history self1
       = full_message_history self ++ [ {| role := role; content := prompt |} ]
    /\ (summarized_message_history self1
        = summarized_message_history self ++ [ {| role := role; content := prompt |} ]
        \/ exists text,
             summarized_message_history self1
             = [ {| role := py "system"; content := text |};
                 {| role := role; content := prompt |} ]).
Proof.
  intros W client w w1 w2 self self1 prompt role json_response t1 window resp
         Hrole Hm Hc Ht.
  split.
  - erewrite run_send_message_exceeded; [reflexivity|exact Hrole|exact Hm|exact Hc|exact Ht].
  - pose proof (leaves_run client _ _ w
                  (manage_context_window_leaves
                     (appended self {| role := role; content := prompt |}))) as Hl.
    rewrite Hm in Hl. cbn [value_of fst snd appended set_histories
                             full_message_history summarized_message_history] in Hl.
    destruct Hl as [Hfull Hsum]. split; [exact Hfull|].
    destruct Hsum as [Hsame | (text & earlier & latest & Heq & Hnew)].
    + now left.
    + right. exists text. apply app_inj_tail in Heq. destruct Heq as [_ <-]. exact Hnew.
Qed.

(** The fourth scenario of the design: the service reports 5000 total
    tokens for the multi-turn call. *)
Lemma C6_witness :
  In (py "user") valid_roles
  /\ 4096 < 5000
  /\ value_of (run TestDouble.scripted
                   (send_message (py "hello there") (py "user") false
                      (TestDouble.with_history 50 TestDouble.three_turns))
                   [TestDouble.completion (py "hi") 5000])
     = (appended (TestDouble.with_history 50 TestDouble.three_turns)
                 {| role := py "user"; content := py "hello there" |},
        inl (ValueError context_window_exceeded))
  /\ full_message_history
       (appended (TestDouble.with_history 50 TestDouble.three_turns)
                 {| role := py "user"; content := py "hello there" |})
     = TestDouble.three_turns ++ [ {| role := py "user"; content := py "hello there" |} ].
Proof.
  assert (Hrole : In (py "user") valid_roles) by (cbn; auto).
  assert (Hlim : 4096 < 5000) by lia.
  split; [exact Hrole|]. split; [exact Hlim|].
  destruct (@C6_context_window_exceeded _ TestDouble.scripted
              [TestDouble.completion (py "hi") 5000] [TestDouble.completion (py "hi") 5000] []
              (TestDouble.with_history 50 TestDouble.three_turns)
              (appended (TestDouble.with_history 50 TestDouble.three_turns)
                        {| role := py "user"; content := py "hello there" |})
              (py "hello there") (py "user") false
              [EvEnter m_manage_context_window]
              (TestDouble.three_turns ++ [ {| role := py "user"; content := py "hello there" |} ])
              {| choices := [py "hi"]; total_tokens := 5000 |}
              Hrole)
    as (H1 & H2 & _).
  - vm_compute. reflexivity.
  - reflexivity.
  - exact Hlim.
  - split; [exact H1|exact H2].
Defined.

(* ================================================================= *)
(** ** The verbatim history *)

Lemma extends_bind {A B : Type} (m : M A) (f : A -> M B) :
  extends m -> (forall a, extends (f a)) -> extends (bind m f).
Proof.
  intros Hm Hf self. unfold bind. apply leaves_pbind.
  apply leaves_weaken with (2 := Hm self).
  intros [self1 [e|a]] Hpre; cbn [fst snd] in *.
  - exact Hpre.
  - apply leaves_weaken with (2 := Hf a self1).
    intros sr Hsr. exact (prefix_trans Hpre Hsr).
Qed.

Lemma extends_ret {A : Type} (a : A) : extends (ret a).
Proof. intros self. apply prefix_refl. Qed.

Lemma extends_raise {A : Type} (e : exn) : extends (@raise A e).
Proof. intros self. apply prefix_refl. Qed.

Lemma extends_get : extends get.
Proof. intros self. apply prefix_refl. Qed.

Lemma extends_enter (m : method) : extends (enter m).
Proof. intros self. apply prefix_refl. Qed.

Lemma extends_create (rq : request) : extends (create rq).
Proof. intros self a. apply prefix_refl. Qed.

Lemma extends_index_first {A : Type} (xs : list A) : extends (index_first xs).
Proof. destruct xs; [apply extends_raise|apply extends_ret]. Qed.

Lemma extends_index_last {A : Type} (xs : list A) : extends (index_last xs).
Proof. unfold index_last. destruct (rev xs); [apply extends_raise|apply extends_ret]. Qed.

Lemma extends_forget {A : Type} (m : M A) : extends m -> extends (forget m).
Proof. intros H. apply extends_bind; [exact H|]. intros a. apply extends_ret. Qed.

Create HintDb extends_db.
#[local] Hint Resolve extends_ret extends_raise extends_get extends_enter
  extends_create extends_index_first extends_index_last extends_forget : extends_db.

Ltac extends_step :=
  repeat first
    [ solve [auto with extends_db]
    | match goal with |- extends (if ?c then _ else _) => destruct c end
    | apply extends_bind; [|intros ?] ].

Lemma extends_add_message_to_history (msg : message) :
  extends (add_message_to_history msg).
Proof. intros self. cbn. apply prefix_app. Qed.

Lemma extends_gpt4_conversation (window : list message) (json_response : bool)
    (model : pystr) :
  extends (gpt4_conversation window json_response model).
Proof. unfold gpt4_conversation. extends_step. Qed.

Lemma extends_gpt4_one_shot (system_prompt user_prompt : pystr) (json_response : bool)
    (model : pystr) :
  extends (gpt4_one_shot system_prompt user_prompt json_response model).
Proof. unfold gpt4_one_shot. extends_step. Qed.

Lemma extends_summarize_chat_history : extends summarize_chat_history.
Proof.
  unfold summarize_chat_history. extends_step.
Qed.

Lemma extends_manage_context_window : extends manage_context_window.
Proof.
  intros self. apply leaves_weaken with (2 := manage_context_window_leaves self).
  intros sr [Hfull _]. rewrite Hfull. apply prefix_refl.
Qed.

#[local] Hint Resolve extends_add_message_to_history extends_gpt4_conversation
  extends_gpt4_one_shot extends_summarize_chat_history
  extends_manage_context_window : extends_db.

Lemma extends_send_message (prompt role : pystr) (json_response : bool) :
  extends (send_message prompt role json_response).
Proof. unfold send_message. extends_step. Qed.

Lemma extends_call (o : op) : extends (call o).
Proof.
  destruct o; cbn [call]; auto using extends_send_message with extends_db.
Qed.

Lemma session_extends (ops : list op) (self : llm) :
  leaves (fun s => prefix (full_message_history self) (full_message_history s))
         (session ops self).
Proof.
  revert self. induction ops as [|o ops IH]; intros self; cbn [session].
  - apply prefix_refl.
  - apply leaves_pbind. apply leaves_weaken with (2 := extends_call o self).
    intros sr Hsr. apply leaves_weaken with (2 := IH (fst sr)).
    intros s Hs. exact (prefix_trans Hsr Hs).
Qed.

(** In particular a message keeps its position for the whole session
    and the history never gets shorter. *)
Corollary session_keeps_messages (W : Type) (client : W -> request -> W * reply)
    (w : W) (ops : list op) (self : llm) (i : nat) (m : message) :
  nth_error (full_message_history self) i = Some m ->
  nth_error (full_message_history (value_of (run client (session ops self) w))) i = Some m
  /\ (List.length (full_message_history self)
      <= List.length (full_message_history (value_of (run client (session ops self) w))))%nat.
Proof.
  intros H.
  pose proof (leaves_run client _ _ w (session_extends ops self)) as Hp.
  cbv beta in Hp.
  split; [exact (prefix_nth_error i Hp H)|exact (prefix_length Hp)].
Qed.

(** C7: the verbatim history is append-only.  Whatever the service
    replies, after any one call of a method (returning or raising) the
    verbatim history has the previous one as a prefix, and so it has
    after any sequence of calls: nothing is removed, reordered or
    replaced. *)
Theorem C7_verbatim_history_append_only :
  forall (W : Type) (client : W -> request -> W * reply) (w : W) (self : llm),
    (forall o : op,
        prefix (full_message_history self)
               (full_message_history (fst (value_of (run client (call o self) w)))))
    /\ (forall ops : list op,
           prefix (full_message_history self)
                  (full_message_history (value_of (run client (session ops self) w)))).
Proof.
  intros W client w self. split.
  - intros o.
    exact (leaves_run client
             (fun sr => prefix (full_message_history self) (full_message_history (fst sr)))
             (call o self) w (extends_call o self)).
  - intros ops.
    exact (leaves_run client
             (fun s => prefix (full_message_history self) (full_message_history s))
             (session ops self) w (session_extends ops self)).
Qed.

(** A session on the sample conversation: a compressing turn, a
    rejected role, a direct call of the builder. *)
Example session_example :
  full_message_history
    (value_of (run TestDouble.scripted
                 (session [ op_send_message (py "m n") (py "user") false;
                            op_send_message (py "x") (py "bogus") true;
                            op_manage_context_window ]
                          TestDouble.scenario2)
                 [ TestDouble.completion (py "summary") 100;
                   TestDouble.completion (py "reply") 200 ]))
  = TestDouble.three_turns
    ++ [ {| role := py "user"; content := py "m n" |};
         {| role := py "assistant"; content := py "reply" |} ].
Proof. vm_compute. reflexivity. Qed.

(** Every request [send_message] can send leaves [response_format] at
    [None]. *)
Lemma send_message_requests (prompt role : pystr) (json_response : bool) (self : llm) :
  requests (fun rq => response_format rq = None)
           (send_message prompt role json_response self).
Proof.
  unfold send_message, manage_context_window, summarize_chat_history,
    gpt4_conversation, gpt4_one_shot, add_message_to_history.
  unfold_monad.
  repeat (cbn [pbind requests fst snd]; intros;
          try match goal with
              | |- _ /\ _ => split; [reflexivity|]
              | |- True => exact I
              | |- context [match ?x with _ => _ end] => destruct x
              | |- context [if ?x then _ else _] => destruct x
              end).
Qed.

(** C10: [json_response] has no effect on [send_message].  Two calls
    that differ only in the flag are the same program: the same
    requests go to the service, and for the same replies the same
    histories and the same result come out.  The multi-turn request is
    the one built for [json_response=False], and no request the call
    can send asks for the JSON format. *)
Theorem C10_json_response_ignored :
  forall (prompt role : pystr) (j1 j2 : bool),
    send_message prompt role j1 = send_message prompt role j2
    /\ (forall (W : Type) (client : W -> request -> W * reply) (w : W) (self : llm),
          run client (send_message prompt role j1 self) w
          = run client (send_message prompt role j2 self) w)
    /\ (forall self : llm,
          requests (fun rq => response_format rq = None)
                   (send_message prompt role j1 self)).
Proof.
  intros prompt role j1 j2. split; [reflexivity|]. split.
  - intros. reflexivity.
  - intros self. apply send_message_requests.
Qed.

(* ================================================================= *)
(** * Further properties of the class *)

(** ** More on the estimator *)

Lemma calculate_total_tokens_app (l1 l2 : list message) :
  calculate_total_tokens (l1 ++ l2)
  = calculate_total_tokens l1 + calculate_total_tokens l2.
Proof. rewrite !calculate_total_tokens_sum. apply sum_of_word_counts_app. Qed.

Lemma calculate_total_tokens_nonneg (l : list message) : 0 <= calculate_total_tokens l.
Proof. rewrite calculate_total_tokens_sum. unfold sum_of_word_counts. lia. Qed.

Lemma calculate_total_tokens_single (m : message) :
  calculate_total_tokens [m] = Z.of_nat (List.length (split (content m))).
Proof. unfold calculate_total_tokens. cbn. reflexivity. Qed.

Lemma word_starts_blank (b : bool) (s : pystr) :
  blank s = true -> word_starts b s = O.
Proof.
  revert b. induction s as [|c s IH]; intros b H; [reflexivity|].
  cbn in H. apply andb_prop in H. destruct H as [Hc Hs].
  cbn. rewrite Hc, andb_false_r. cbn. now apply IH.
Qed.

Lemma word_starts_zero (s : pystr) : word_starts true s = O -> blank s = true.
Proof.
  induction s as [|c s IH]; intros H; [reflexivity|].
  cbn in H. cbn. destruct (isspace c); cbn in *.
  - apply IH. lia.
  - lia.
Qed.

Lemma word_starts_bound (b : bool) (s : pystr) :
  (2 * word_starts b s <= List.length s + (if b then 1 else 0))%nat.
Proof.
  revert b. induction s as [|c s IH]; intros b.
  - cbn. lia.
  - cbn [word_starts List.length]. specialize (IH (isspace c)).
    destruct (isspace c), b; cbn in *; lia.
Qed.

(** X1: a text counts for 0 tokens exactly when it is empty or all
    white space, and a sequence of messages is estimated at 0 exactly
    when every content is such a text. *)
Theorem X1_zero_tokens_iff_blank :
  (forall s : pystr, List.length (split s) = O <-> blank s = true)
  /\ (forall messages : list message,
        calculate_total_tokens messages = 0
        <-> Forall (fun m => blank (content m) = true) messages).
Proof.
  assert (Hs : forall s : pystr, List.length (split s) = O <-> blank s = true).
  { intros s. rewrite length_split. unfold word_count. split.
    - apply word_starts_zero.
    - apply word_starts_blank. }
  split; [exact Hs|].
  intros history. induction history as [|m ms IH].
  - split; [constructor|reflexivity].
  - change (m :: ms) with ([m] ++ ms).
    rewrite calculate_total_tokens_app, calculate_total_tokens_single.
    pose proof (calculate_total_tokens_nonneg ms) as Hnn.
    split.
    + intros H. constructor.
      * apply Hs. lia.
      * apply IH. lia.
    + intros H. inversion H as [|? ? Hm Hms]; subst.
      apply Hs in Hm. apply IH in Hms. lia.
Qed.

(** X2: words need separators: a text of [n] code points has at most
    [(n + 1) / 2] words, so the estimate of a sequence never exceeds
    the number of code points of its contents plus one per message,
    halved. *)
Theorem X2_tokens_bounded_by_length :
  (forall s : pystr, (2 * List.length (split s) <= List.length s + 1)%nat)
  /\ (forall messages : list message,
        2 * calculate_total_tokens messages
        <= Z.of_nat (list_sum (List.map (fun m => List.length (content m)) messages))
           + Z.of_nat (List.length messages)).
Proof.
  assert (Hs : forall s : pystr, (2 * List.length (split s) <= List.length s + 1)%nat).
  { intros s. rewrite length_split. apply (word_starts_bound true). }
  split; [exact Hs|].
  intros history. induction history as [|m ms IH].
  - cbn. lia.
  - change (m :: ms) with ([m] ++ ms) at 1.
    rewrite calculate_total_tokens_app, calculate_total_tokens_single.
    specialize (Hs (content m)).
    change (list_sum (List.map (fun m0 => List.length (content m0)) (m :: ms)))
      with (List.length (content m)
            + list_sum (List.map (fun m0 => List.length (content m0)) ms))%nat.
    change (List.length (m :: ms)) with (S (List.length ms)).
    lia.
Qed.

(** X3: the estimator is additive over concatenation of sequences; in
    particular [add_message_to_history] puts the message at the end of
    both histories and raises the estimate of the active history by
    exactly the word count of the message. *)
Theorem X3_estimate_additive :
  (forall l1 l2 : list message,
      calculate_total_tokens (l1 ++ l2)
      = calculate_total_tokens l1 + calculate_total_tokens l2)
  /\ (forall (W : Type) (client : W -> request -> W * reply) (w : W)
             (msg : message) (self : llm),
        exists self',
          run client (add_message_to_history msg self) w
          = ([EvEnter m_add_message_to_history], w, (self', inr tt))
          /\ full_message_history self' = full_message_history self ++ [msg]
          /\ summarized_message_history self' = summarized_message_history self ++ [msg]
          /\ calculate_total_tokens (summarized_message_history self')
             = calculate_total_tokens (summarized_message_history self)
               + Z.of_nat (List.length (split (content msg)))).
Proof.
  split; [exact calculate_total_tokens_app|].
  intros W client w msg self. exists (appended self msg).
  split; [reflexivity|]. split; [reflexivity|]. split; [reflexivity|].
  cbn [appended set_histories summarized_message_history].
  now rewrite calculate_total_tokens_app, calculate_total_tokens_single.
Qed.

(** ** More on the service wrappers *)

Lemma count_requests_app (t1 t2 : list event) :
  count_requests (t1 ++ t2) = (count_requests t1 + count_requests t2)%nat.
Proof.
  induction t1 as [|[m|rq a] t1 IH]; cbn; [reflexivity|exact IH|now rewrite IH].
Qed.

(** X4: [gpt4_one_shot] returns a text exactly when the service
    answered with a completion of at most 4096 total tokens that has a
    first choice, and the text is that choice's; a completion over the
    limit raises the context-window [ValueError] whatever its choices
    are.  In every case exactly one request is sent and the object is
    not changed. *)
Theorem X4_gpt4_one_shot_outcomes :
  forall (W : Type) (client : W -> request -> W * reply) (w : W)
         (system_prompt user_prompt : pystr) (json_response : bool) (model : pystr)
         (self : llm),
    let rq := one_shot_request system_prompt user_prompt json_response model in
    let o := run client (gpt4_one_shot system_prompt user_prompt json_response model self) w in
    (forall text : pystr,
        snd (value_of o) = inr text
        <-> exists resp others,
              snd (client w rq) = inr resp
              /\ total_tokens resp <= 4096
              /\ choices resp = text :: others)
    /\ (forall resp : response,
          snd (client w rq) = inr resp -> 4096 < total_tokens resp ->
          snd (value_of o) = inl (ValueError context_window_exceeded))
    /\ fst (value_of o) = self
    /\ count_requests (trace_of o) = 1%nat.
Proof.
  intros W client w system_prompt user_prompt json_response model self rq o.
  destruct (run_gpt4_one_shot client system_prompt user_prompt json_response model self w)
    as (Ht & _ & Hs).
  fold rq in Ht. fold o in Ht, Hs.
  assert (Hv : snd (value_of o)
               = match snd (client w rq) with
                 | inl e => inl e
                 | inr resp =>
                     if 4096 <? total_tokens resp
                     then inl (ValueError context_window_exceeded)
                     else match choices resp with
                          | [] => inl (IndexError (py "list index out of range"))
                          | text :: _ => inr text
                          end
                 end).
  { unfold o, gpt4_one_shot. unfold_monad. cbn. fold rq.
    destruct (client w rq) as [w1 [e|resp]]; cbn; [reflexivity|].
    destruct (4096 <? total_tokens resp); [reflexivity|].
    destruct (choices resp); reflexivity. }
  repeat split.
  - rewrite Hv. intros H. destruct (snd (client w rq)) as [e|resp]; [discriminate|].
    destruct (4096 <? total_tokens resp) eqn:Hlim; [discriminate|].
    destruct (choices resp) as [|t others] eqn:Hch; [discriminate|].
    exists resp, others. apply Z.ltb_ge in Hlim. split; [reflexivity|].
    split; [lia|]. congruence.
  - intros (resp & others & Hr & Hlim & Hch). rewrite Hv, Hr.
    replace (4096 <? total_tokens resp) with false by (symmetry; apply Z.ltb_ge; lia).
    now rewrite Hch.
  - intros resp Hr Hlim. rewrite Hv, Hr.
    now replace (4096 <? total_tokens resp) with true by (symmetry; apply Z.ltb_lt; lia).
  - exact Hs.
  - rewrite Ht. reflexivity.
Qed.

Lemma run_gpt4_conversation (W : Type) (client : W -> request -> W * reply) (w : W)
    (window : list message) (json_response : bool) (model : pystr) (self : llm) :
  let rq := {| model := model; temperature := 79 # 100; max_tokens := 4096;
               response_format := json_object_format json_response;
               messages := window |} in
  run client (gpt4_conversation window json_response model self) w
  = ([EvEnter m_gpt4_conversation; EvCreate rq (snd (client w rq))],
     fst (client w rq),
     (self, match snd (client w rq) with
            | inl e => inl e
            | inr resp =>
                if 4096 <? total_tokens resp
                then inl (ValueError context_window_exceeded)
                else inr resp
            end)).
Proof.
  intros rq. unfold gpt4_conversation. unfold_monad. cbn. fold rq.
  destruct (client w rq) as [w1 [e|resp]]; cbn; [reflexivity|].
  destruct (4096 <? total_tokens resp); reflexivity.
Qed.

(** X5: [gpt4_conversation] hands back the service's completion
    exactly when its total token usage is at most 4096 (4096 itself is
    accepted), without looking at its choices; it sends one request,
    which carries the window as given and asks for the JSON format
    exactly when [json_response] is set, and it never changes the
    object. *)
Theorem X5_gpt4_conversation_outcomes :
  forall (W : Type) (client : W -> request -> W * reply) (w : W)
         (window : list message) (json_response : bool) (model : pystr) (self : llm),
    let o := run client (gpt4_conversation window json_response model self) w in
    exists rq,
      trace_of o = [EvEnter m_gpt4_conversation; EvCreate rq (snd (client w rq))]
      /\ messages rq = window
      /\ (response_format rq <> None <-> json_response = true)
      /\ (forall resp : response,
            snd (value_of o) = inr resp
            <-> snd (client w rq) = inr resp /\ total_tokens resp <= 4096)
      /\ fst (value_of o) = self.
Proof.
  intros W client w window json_response model self o.
  eexists. unfold o. rewrite run_gpt4_conversation.
  cbn [trace_of value_of fst snd messages response_format].
  split; [reflexivity|]. split; [reflexivity|]. split; [|split; [|reflexivity]].
  - destruct json_response; cbn; split; congruence.
  - intros resp.
    match goal with |- context [client w ?r] => destruct (snd (client w r)) as [e|resp'] end.
    + split; [discriminate|]. intros [H _]. discriminate.
    + destruct (4096 <? total_tokens resp') eqn:Hlim.
      * apply Z.ltb_lt in Hlim. split; [discriminate|].
        intros [H Hle]. inversion H; subst. lia.
      * apply Z.ltb_ge in Hlim. split.
        -- intros H. inversion H; subst. split; [reflexivity|lia].
        -- intros [H _]. exact H.
Qed.

(** ** More on the Summarizer *)

(** X6: [summarize_chat_history] never changes the object, sends
    exactly one request whatever happens, and when it returns, it
    returns a list of exactly one message, of role 'system'. *)
Theorem X6_summarizer_is_read_only :
  forall (W : Type) (client : W -> request -> W * reply) (w : W) (self : llm),
    let o := run client (summarize_chat_history self) w in
    fst (value_of o) = self
    /\ count_requests (trace_of o) = 1%nat
    /\ (forall history : list message,
          snd (value_of o) = inr history ->
          exists text, history = [ {| role := py "system"; content := text |} ]).
Proof.
  intros W client w self o. unfold o.
  rewrite (run_summarize_chat_history client self w eq_refl).
  cbn [value_of trace_of fst snd]. split; [reflexivity|]. split; [reflexivity|].
  intros history H.
  destruct (snd (value_of (run client (gpt4_one_shot _ _ _ _ self) w))) as [e|text];
    [discriminate|].
  exists text. congruence.
Qed.



(** ** More on the context window builder *)

(** The builder finishes in one of three ways: the active history
    returned as it is, an exception with the object as it was, or the
    compression stored and returned. *)
Lemma manage_context_window_outcomes (self : llm) :
  leaves (fun sr =>
            sr = (self, inr (summarized_message_history self))
            \/ (exists e, sr = (self, inl e))
            \/ exists text earlier latest,
                 summarized_message_history self = earlier ++ [latest]
                 /\ sr = (compressed self text latest,
                          inr [ {| role := py "system"; content := text |}; latest ]))
         (manage_context_window self).
Proof.
  unfold manage_context_window, summarize_chat_history, gpt4_one_shot.
  unfold_monad. cbn [pbind leaves fst snd].
  destruct (_ <=? _); cbn [pbind leaves fst snd]; [|auto].
  intros [e|resp]; cbn [pbind leaves fst snd]; [eauto|].
  destruct (4096 <? total_tokens resp); cbn [pbind leaves fst snd]; [eauto|].
  destruct (choices resp) as [|text others]; cbn [pbind leaves fst snd]; [eauto|].
  destruct (rev (summarized_message_history self)) as [|latest others'] eqn:Hrev;
    cbn [pbind leaves fst snd]; [eauto|].
  right. right. exists text, (rev others'), latest. split; [|reflexivity].
  rewrite <- (rev_involutive (summarized_message_history self)), Hrev. reflexivity.
Qed.



(** X9: compression does not shrink the newest message.  When the last
    message of the active history alone reaches the threshold, the
    builder calls the Summarizer, and whatever the service replies the
    active history it leaves is still at or above the threshold, so
    the next call of the builder calls the Summarizer again. *)
Theorem X9_oversized_latest_always_summarized :
  forall (W : Type) (client : W -> request -> W * reply) (w w' : W) (self : llm)
         (earlier : list message) (latest : message),
    summarized_message_history self = earlier ++ [latest] ->
    token_threshold_to_trigger_summarization self
      <= Z.of_nat (List.length (split (content latest))) ->
    let o := run client (manage_context_window self) w in
    summarizer_invoked (trace_of o)
    /\ token_threshold_to_trigger_summarization (fst (value_of o))
       <= calculate_total_tokens (summarized_message_history (fst (value_of o)))
    /\ summarizer_invoked
         (trace_of (run client (manage_context_window (fst (value_of o))) w')).
Proof.
  intros W client w w' self earlier latest Hlast Hbig o.
  assert (Hge : token_threshold_to_trigger_summarization self
                <= calculate_total_tokens (summarized_message_history self)).
  { rewrite Hlast, calculate_total_tokens_app, calculate_total_tokens_single.
    pose proof (calculate_total_tokens_nonneg earlier). lia. }
  assert (Hstill : token_threshold_to_trigger_summarization (fst (value_of o))
                   <= calculate_total_tokens
                        (summarized_message_history (fst (value_of o)))).
  { pose proof (leaves_run client _ _ w (manage_context_window_outcomes self)) as Hl.
    cbv beta in Hl.
    destruct Hl as [Hl | [(e & Hl) | (text & earlier' & latest' & Heq & Hl)]].
    - assert (E : fst (value_of o) = self) by exact (f_equal fst Hl).
      rewrite E. exact Hge.
    - assert (E : fst (value_of o) = self) by exact (f_equal fst Hl).
      rewrite E. exact Hge.
    - assert (E : fst (value_of o) = compressed self text latest')
        by exact (f_equal fst Hl).
      rewrite E. rewrite Hlast in Heq. apply app_inj_tail in Heq. destruct Heq as [_ <-].
      cbn [compressed set_histories summarized_message_history
             token_threshold_to_trigger_summarization].
      change [ {| role := py "system"; content := text |}; latest ]
        with ([ {| role := py "system"; content := text |} ] ++ [latest]).
      rewrite calculate_total_tokens_app, !calculate_total_tokens_single. lia. }
  split; [now apply summarizer_invoked_iff|]. split; [exact Hstill|].
  now apply summarizer_invoked_iff.
Qed.

Lemma X9_witness :
  (token_threshold_to_trigger_summarization
     (TestDouble.with_history 3 [TestDouble.long_message 4])
   <= Z.of_nat (List.length (split (content (TestDouble.long_message 4)))))
  /\ summarizer_invoked
       (trace_of (run TestDouble.scripted
                    (manage_context_window
                       (TestDouble.with_history 3 [TestDouble.long_message 4]))
                    [TestDouble.completion (py "summary") 100]))
  /\ summarizer_invoked
       (trace_of (run TestDouble.scripted
                    (manage_context_window
                       (fst (value_of (run TestDouble.scripted
                          (manage_context_window
                             (TestDouble.with_history 3 [TestDouble.long_message 4]))
                          [TestDouble.completion (py "summary") 100]))))
                    [])).
Proof.
  assert (H : token_threshold_to_trigger_summarization
                (TestDouble.with_history 3 [TestDouble.long_message 4])
              <= Z.of_nat (List.length (split (content (TestDouble.long_message 4)))))
    by (vm_compute; discriminate).
  split; [exact H|].
  destruct (@X9_oversized_latest_always_summarized _ TestDouble.scripted
              [TestDouble.completion (py "summary") 100] []
              (TestDouble.with_history 3 [TestDouble.long_message 4])
              [] (TestDouble.long_message 4) eq_refl H)
    as (H1 & _ & H3).
  split; [exact H1|exact H3].
Defined.

(** ** More on the conversation driver *)

Section DriverTurns.
Variable W : Type.
Variable client : W -> request -> W * reply.

Lemma run_gpt4_conversation_returns (window : list message) (self : llm)
    (w w1 : W) (resp : response) :
  client w (conversation_request window) = (w1, inr resp) ->
  total_tokens resp <= 4096 ->
  run client (gpt4_conversation window false default_model self) w
  = ([EvEnter m_gpt4_conversation; EvCreate (conversation_request window) (inr resp)],
     w1, (self, inr resp)).
Proof.
  intros Hc Hlim. rewrite run_gpt4_conversation.
  change {| model := default_model; temperature := 79 # 100; max_tokens := 4096;
            response_format := json_object_format false; messages := window |}
    with (conversation_request window).
  rewrite Hc. cbn [fst snd].
  now replace (4096 <? total_tokens resp) with false by (symmetry; apply Z.ltb_ge; lia).
Qed.

(** A turn whose window was built and whose multi-turn call returned. *)
Lemma run_send_message_returns (prompt role : pystr) (json_response : bool)
    (self self1 : llm) (w w1 w2 : W) (t1 : list event) (window : list message)
    (resp : response) (text : pystr) (others : list pystr) :
  In role valid_roles ->
  run client (manage_context_window (appended self {| role := role; content := prompt |})) w
    = (t1, w1, (self1, inr window)) ->
  client w1 (conversation_request window) = (w2, inr resp) ->
  total_tokens resp <= 4096 ->
  choices resp = text :: others ->
  run client (send_message prompt role json_response self) w
  = (EvEnter m_send_message :: EvEnter m_add_message_to_history :: t1
       ++ [EvEnter m_gpt4_conversation;
           EvCreate (conversation_request window) (inr resp);
           EvEnter m_add_message_to_history],
     w2,
     (appended self1 {| role := py "assistant"; content := text |}, inr text)).
Proof.
  intros Hrole Hm Hc Hlim Hch. unfold send_message. rewrite (role_dispatch prompt Hrole).
  rewrite (run_bind_ok client (enter m_send_message) _ self w
             (t1 := [EvEnter m_send_message]) (a := tt) eq_refl).
  rewrite (run_bind_ok client _ _ self w (run_add_message_to_history client _ self w)).
  rewrite (run_bind_ok client _ _ _ w Hm).
  rewrite (run_bind_ok client _ _ self1 w1
             (run_gpt4_conversation_returns self1 Hc Hlim)).
  rewrite Hch. reflexivity.
Qed.
End DriverTurns.

(** X10: a turn that stays below the threshold.  For a valid role,
    when the active history plus the new message is estimated below
    the threshold and the service answers the multi-turn request with
    at most 4096 total tokens and a first choice [text], [send_message]
    sends exactly that one request, whose messages are the active
    history followed by the new message, returns [text], and both
    histories end up extended by the new message and the assistant
    message holding [text]. *)
Theorem X10_send_message_plain_turn :
  forall (W : Type) (client : W -> request -> W * reply) (w w1 : W) (self : llm)
         (prompt role : pystr) (json_response : bool)
         (resp : response) (text : pystr) (others : list pystr),
    In role valid_roles ->
    calculate_total_tokens (summarized_message_history self)
      + Z.of_nat (List.length (split prompt))
      < token_threshold_to_trigger_summarization self ->
    client w (conversation_request
                (summarized_message_history self ++ [ {| role := role; content := prompt |} ]))
      = (w1, inr resp) ->
    total_tokens resp <= 4096 ->
    choices resp = text :: others ->
    exists self',
      run client (send_message prompt role json_response self) w
      = ([ EvEnter m_send_message; EvEnter m_add_message_to_history;
           EvEnter m_manage_context_window; EvEnter m_gpt4_conversation;
           EvCreate (conversation_request
                       (summarized_message_history self
                          ++ [ {| role := role; content := prompt |} ]))
                    (inr resp);
           EvEnter m_add_message_to_history ],
         w1, (self', inr text))
      /\ full_message_history self'
         = full_message_history self
             ++ [ {| role := role; content := prompt |};
                  {| role := py "assistant"; content := text |} ]
      /\ summarized_message_history self'
         = summarized_message_history self
             ++ [ {| role := role; content := prompt |};
                  {| role := py "assistant"; content := text |} ].
Proof.
  intros W client w w1 self prompt role json_response resp text others
         Hrole Hlt Hc Hlim Hch.
  set (msg := {| role := role; content := prompt |}) in *.
  assert (Hbelow : calculate_total_tokens (summarized_message_history (appended self msg))
                   < token_threshold_to_trigger_summarization (appended self msg)).
  { cbn [appended set_histories summarized_message_history
           token_threshold_to_trigger_summarization].
    rewrite calculate_total_tokens_app, calculate_total_tokens_single. exact Hlt. }
  pose proof (run_manage_below client (appended self msg) w Hbelow) as Hm.
  exists (appended (appended self msg) {| role := py "assistant"; content := text |}).
  split.
  - erewrite run_send_message_returns;
      [|exact Hrole|exact Hm|exact Hc|exact Hlim|exact Hch].
    reflexivity.
  - cbn [appended set_histories full_message_history summarized_message_history].
    rewrite <- !app_assoc. split; reflexivity.
Qed.

Lemma X10_witness :
  In (py "user") valid_roles
  /\ exists self',
       run TestDouble.scripted
           (send_message (py "hello there") (py "user") false
              (TestDouble.with_history 50 TestDouble.three_turns))
           [TestDouble.completion (py "hi") 30]
       = ([ EvEnter m_send_message; EvEnter m_add_message_to_history;
            EvEnter m_manage_context_window; EvEnter m_gpt4_conversation;
            EvCreate (conversation_request
                        (TestDouble.three_turns
                           ++ [ {| role := py "user"; content := py "hello there" |} ]))
                     (TestDouble.completion (py "hi") 30);
            EvEnter m_add_message_to_history ],
          [], (self', inr (py "hi")))
       /\ full_message_history self'
          = TestDouble.three_turns
              ++ [ {| role := py "user"; content := py "hello there" |};
                   {| role := py "assistant"; content := py "hi" |} ]
       /\ summarized_message_history self'
          = TestDouble.three_turns
              ++ [ {| role := py "user"; content := py "hello there" |};
                   {| role := py "assistant"; content := py "hi" |} ].
Proof.
  assert (Hrole : In (py "user") valid_roles) by (cbn; auto).
  split; [exact Hrole|].
  apply (@X10_send_message_plain_turn _ TestDouble.scripted
           [TestDouble.completion (py "hi") 30] []
           (TestDouble.with_history 50 TestDouble.three_turns)
           (py "hello there") (py "user") false
           {| choices := [py "hi"]; total_tokens := 30 |} (py "hi") [] Hrole).
  - vm_compute. reflexivity.
  - reflexivity.
  - vm_compute. discriminate.
  - reflexivity.
Defined.

(** X11: a turn that compresses.  For a valid role, when the active
    history plus the new message reaches the threshold, the Summarizer
    is asked to condense the whole previous active history (the new
    message is left out of its prompt); if it returns [summary] and the
    multi-turn call, which carries just the summary and the new
    message, returns [text], then [send_message] returns [text] after
    exactly two requests, the verbatim history gains the new message
    and the reply, and the active history is the summary, the new
    message and the reply. *)
Theorem X11_send_message_compressing_turn :
  forall (W : Type) (client : W -> request -> W * reply) (w w1 w2 : W) (self : llm)
         (prompt role : pystr) (json_response : bool)
         (resp1 resp2 : response) (summary text : pystr) (others1 others2 : list pystr),
    In role valid_roles ->
    token_threshold_to_trigger_summarization self
      <= calculate_total_tokens (summarized_message_history self)
         + Z.of_nat (List.length (split prompt)) ->
    client w (one_shot_request summarize_system_prompt
                (join (py " ") (List.map render (summarized_message_history self)))
                false default_model)
      = (w1, inr resp1) ->
    total_tokens resp1 <= 4096 ->
    choices resp1 = summary :: others1 ->
    client w1 (conversation_request
                 [ {| role := py "system"; content := summary |};
                   {| role := role; content := prompt |} ])
      = (w2, inr resp2) ->
    total_tokens resp2 <= 4096 ->
    choices resp2 = text :: others2 ->
    let o := run client (send_message prompt role json_response self) w in
    snd (value_of o) = inr text
    /\ world_of o = w2
    /\ count_requests (trace_of o) = 2%nat
    /\ full_message_history (fst (value_of o))
       = full_message_history self
           ++ [ {| role := role; content := prompt |};
                {| role := py "assistant"; content := text |} ]
    /\ summarized_message_history (fst (value_of o))
       = [ {| role := py "system"; content := summary |};
           {| role := role; content := prompt |};
           {| role := py "assistant"; content := text |} ].
Proof.
  intros W client w w1 w2 self prompt role json_response resp1 resp2 summary text
         others1 others2 Hrole Hge Hc1 Hlim1 Hch1 Hc2 Hlim2 Hch2 o.
  set (msg := {| role := role; content := prompt |}) in *.
  assert (Hrq : summarize_request (appended self msg)
                = one_shot_request summarize_system_prompt
                    (join (py " ") (List.map render (summarized_message_history self)))
                    false default_model).
  { unfold summarize_request.
    cbn [appended set_histories summarized_message_history].
    now rewrite summarize_user_prompt_app. }
  assert (Habove : token_threshold_to_trigger_summarization (appended self msg)
                   <= calculate_total_tokens
                        (summarized_message_history (appended self msg))).
  { cbn [appended set_histories summarized_message_history
           token_threshold_to_trigger_summarization].
    rewrite calculate_total_tokens_app, calculate_total_tokens_single. exact Hge. }
  assert (Hsum : snd (value_of (run client
                   (gpt4_one_shot summarize_system_prompt
                      (summarize_user_prompt
                         (summarized_message_history (appended self msg)))
                      false default_model (appended self msg)) w)) = inr summary).
  { apply gpt4_one_shot_returns with (w1 := w1) (resp := resp1) (others := others1);
      [|exact Hlim1|exact Hch1].
    fold (summarize_request (appended self msg)). rewrite Hrq. exact Hc1. }
  pose proof (run_manage_above client (appended self msg) w Habove Hsum) as Hm.
  cbv zeta in Hm. rewrite Hrq, Hc1 in Hm.
  cbn [appended set_histories summarized_message_history fst snd] in Hm.
  rewrite rev_app_distr in Hm. cbn [rev app] in Hm.
  unfold o.
  erewrite run_send_message_returns;
    [|exact Hrole|exact Hm|exact Hc2|exact Hlim2|exact Hch2].
  cbn [value_of world_of trace_of fst snd appended set_histories
         full_message_history summarized_message_history app count_requests].
  rewrite <- app_assoc. repeat split; reflexivity.
Qed.

(** The second scenario of the design carried through a whole turn. *)
Lemma X11_witness :
  In (py "user") valid_roles
  /\ snd (value_of (run TestDouble.scripted
            (send_message (py "g h i j k l") (py "user") false
               (TestDouble.with_history 5
                  [ {| role := py "user"; content := py "a b c" |};
                    {| role := py "assistant"; content := py "d e f" |} ]))
            [ TestDouble.completion (py "summary") 100;
              TestDouble.completion (py "reply") 200 ]))
     = inr (py "reply")
  /\ summarized_message_history
       (fst (value_of (run TestDouble.scripted
          (send_message (py "g h i j k l") (py "user") false
             (TestDouble.with_history 5
                [ {| role := py "user"; content := py "a b c" |};
                  {| role := py "assistant"; content := py "d e f" |} ]))
          [ TestDouble.completion (py "summary") 100;
            TestDouble.completion (py "reply") 200 ])))
     = [ {| role := py "system"; content := py "summary" |};
         {| role := py "user"; content := py "g h i j k l" |};
         {| role := py "assistant"; content := py "reply" |} ].
Proof.
  assert (Hrole : In (py "user") valid_roles) by (cbn; auto).
  split; [exact Hrole|].
  destruct (@X11_send_message_compressing_turn _ TestDouble.scripted
              [ TestDouble.completion (py "summary") 100;
                TestDouble.completion (py "reply") 200 ]
              [ TestDouble.completion (py "reply") 200 ] []
              (TestDouble.with_history 5
                 [ {| role := py "user"; content := py "a b c" |};
                   {| role := py "assistant"; content := py "d e f" |} ])
              (py "g h i j k l") (py "user") false
              {| choices := [py "summary"]; total_tokens := 100 |}
              {| choices := [py "reply"]; total_tokens := 200 |}
              (py "summary") (py "reply") [] [] Hrole)
    as (H1 & _ & _ & _ & H5).
  - vm_compute. discriminate.
  - reflexivity.
  - vm_compute. discriminate.
  - reflexivity.
  - reflexivity.
  - vm_compute. discriminate.
  - reflexivity.
  - split; [exact H1|exact H5].
Defined.

(** ** Outcomes of a turn, whatever the service does *)

Lemma leaves_bind {A B : Type} (m : M A) (f : A -> M B) (self : llm)
    (Q : llm * result A -> Prop) (P : llm * result B -> Prop) :
  leaves Q (m self) ->
  (forall s e, Q (s, inl e) -> P (s, inl e)) ->
  (forall s a, Q (s, inr a) -> leaves P (f a s)) ->
  leaves P (bind m f self).
Proof.
  intros Hm He Ha. unfold bind. apply leaves_pbind.
  apply leaves_weaken with (2 := Hm).
  intros [s [e|a]] Hq; cbn [fst snd].
  - apply He, Hq.
  - apply Ha, Hq.
Qed.

Lemma gpt4_conversation_unchanged (window : list message) (json_response : bool)
    (model : pystr) (self : llm) :
  leaves (fun sr => fst sr = self) (gpt4_conversation window json_response model self).
Proof.
  unfold gpt4_conversation. unfold_monad. cbn [pbind leaves fst snd].
  intros [e|resp]; cbn [pbind leaves fst snd]; [reflexivity|].
  destruct (4096 <? total_tokens resp); reflexivity.
Qed.

Lemma index_first_unchanged {A : Type} (xs : list A) (self : llm) :
  leaves (fun sr => fst sr = self) (index_first xs self).
Proof. destruct xs; reflexivity. Qed.

Lemma latest_of_app (history : list message) (m : message) :
  latest_of (history ++ [m]) = Some m.
Proof. unfold latest_of. now rewrite rev_app_distr. Qed.

(** What a turn with a valid role does to the histories, by outcome. *)
Lemma send_message_leaves (prompt role : pystr) (json_response : bool) (self : llm) :
  In role valid_roles ->
  leaves (fun sr =>
            match snd sr with
            | inr text =>
                full_message_history (fst sr)
                = full_message_history self
                    ++ [ {| role := role; content := prompt |};
                         {| role := py "assistant"; content := text |} ]
                /\ latest_of (summarized_message_history (fst sr))
                   = Some {| role := py "assistant"; content := text |}
            | inl _ =>
                full_message_history (fst sr)
                = full_message_history self ++ [ {| role := role; content := prompt |} ]
                /\ latest_of (summarized_message_history (fst sr))
                   = Some {| role := role; content := prompt |}
            end)
         (send_message prompt role json_response self).
Proof.
  intros Hrole. unfold send_message. rewrite (role_dispatch prompt Hrole).
  set (msg := {| role := role; content := prompt |}).
  set (I := fun s : llm =>
              full_message_history s = full_message_history self ++ [msg]
              /\ latest_of (summarized_message_history s) = Some msg).
  apply leaves_bind with (Q := fun sr => sr = (self, inr tt));
    [reflexivity|intros s e H; discriminate H|].
  intros s [] Hs. inversion Hs; subst s. clear Hs.
  apply leaves_bind with (Q := fun sr => sr = (appended self msg, inr tt));
    [reflexivity|intros s e H; discriminate H|].
  intros s [] Hs. inversion Hs; subst s. clear Hs.
  apply leaves_bind with (Q := fun sr => I (fst sr)).
  - apply leaves_weaken with (2 := manage_context_window_leaves (appended self msg)).
    intros sr [Hfull Hsum]. unfold I. split; [exact Hfull|].
    destruct Hsum as [Hsame | (text & earlier & latest & Heq & Hnew)].
    + rewrite Hsame. apply latest_of_app.
    + cbn [appended set_histories summarized_message_history] in Heq.
      apply app_inj_tail in Heq. destruct Heq as [_ Heq]. subst latest.
      rewrite Hnew. reflexivity.
  - intros s e Hs. exact Hs.
  - intros s window Hs. cbn [fst] in Hs.
    apply leaves_bind with (Q := fun sr => fst sr = s);
      [apply gpt4_conversation_unchanged|intros s' e H; cbn in H; subst s'; exact Hs|].
    intros s' resp H. cbn in H. subst s'.
    apply leaves_bind with (Q := fun sr => fst sr = s);
      [apply index_first_unchanged|intros s' e H; cbn in H; subst s'; exact Hs|].
    intros s' text H. cbn in H. subst s'.
    apply leaves_bind with
      (Q := fun sr => sr = (appended s {| role := py "assistant"; content := text |}, inr tt));
      [reflexivity|intros s' e H; discriminate H|].
    intros s' [] H. inversion H; subst s'. clear H.
    destruct Hs as [Hfull _].
    cbn [ret leaves fst snd appended set_histories
           full_message_history summarized_message_history].
    rewrite Hfull, <- app_assoc. split; [reflexivity|apply latest_of_app].
Qed.

(** X12: a turn never leaves a half-recorded exchange other than the
    pending message.  For a valid role and whatever the service does:
    if [send_message] returns [text], the verbatim history has gained
    the new message and the assistant message holding [text], and the
    active history ends with that assistant message; if it raises,
    for any reason, the verbatim history has gained the new message
    only and both histories end with it. *)
Theorem X12_send_message_histories_by_outcome :
  forall (W : Type) (client : W -> request -> W * reply) (w : W) (self : llm)
         (prompt role : pystr) (json_response : bool),
    In role valid_roles ->
    let o := run client (send_message prompt role json_response self) w in
    match snd (value_of o) with
    | inr text =>
        full_message_history (fst (value_of o))
        = full_message_history self
            ++ [ {| role := role; content := prompt |};
                 {| role := py "assistant"; content := text |} ]
        /\ latest_of (summarized_message_history (fst (value_of o)))
           = Some {| role := py "assistant"; content := text |}
    | inl _ =>
        full_message_history (fst (value_of o))
        = full_message_history self ++ [ {| role := role; content := prompt |} ]
        /\ latest_of (summarized_message_history (fst (value_of o)))
           = Some {| role := role; content := prompt |}
        /\ latest_of (full_message_history (fst (value_of o)))
           = Some {| role := role; content := prompt |}
    end.
Proof.
  intros W client w self prompt role json_response Hrole o.
  pose proof (leaves_run client _ _ w
                (send_message_leaves prompt json_response self Hrole)) as H.
  cbv beta in H. unfold o. clear o.
  match type of H with context [value_of ?x] => set (v := value_of x) in H end.
  change (value_of _) with v. clearbody v.
  destruct v as [s [e|text]]; cbn [fst snd] in *.
  - destruct H as [Hfull Hlast]. split; [exact Hfull|]. split; [exact Hlast|].
    rewrite Hfull. apply latest_of_app.
  - exact H.
Qed.

(** A reply without choices: the turn raises [IndexError] after the
    request, and the user's message stays without an answer. *)
Lemma X12_witness :
  In (py "user") valid_roles
  /\ snd (value_of (run TestDouble.scripted
            (send_message (py "hello") (py "user") false (TestDouble.fresh 1024))
            [inr {| choices := []; total_tokens := 10 |}]))
     = inl (IndexError (py "list index out of range"))
  /\ full_message_history
       (fst (value_of (run TestDouble.scripted
          (send_message (py "hello") (py "user") false (TestDouble.fresh 1024))
          [inr {| choices := []; total_tokens := 10 |}])))
     = [ {| role := py "user"; content := py "hello" |} ].
Proof.
  assert (Hrole : In (py "user") valid_roles) by (cbn; auto).
  split; [exact Hrole|]. split; [reflexivity|].
  pose proof (@X12_send_message_histories_by_outcome _ TestDouble.scripted
                [inr {| choices := []; total_tokens := 10 |}] (TestDouble.fresh 1024)
                (py "hello") (py "user") false Hrole) as H.
  cbv zeta in H.
  change (snd (value_of (run TestDouble.scripted
            (send_message (py "hello") (py "user") false (TestDouble.fresh 1024))
            [inr {| choices := []; total_tokens := 10 |}])))
    with (@inl exn pystr (IndexError (py "list index out of range"))) in H.
  cbv iota in H. destruct H as [H _]. exact H.
Defined.

(** ** How many requests a call costs *)

Lemma counts_run (W : Type) (client : W -> request -> W * reply) {R : Type}
    (P : nat -> Prop) (p : prog R) (w : W) :
  counts P p -> P (count_requests (trace_of (run client p w))).
Proof.
  revert P w. induction p as [r|m p IH|rq k IH]; intros P w H.
  - exact H.
  - exact (IH P w H).
  - exact (IH (snd (client w rq)) (fun n => P (S n)) (fst (client w rq))
              (H (snd (client w rq)))).
Qed.

Ltac count_paths :=
  repeat (cbn [pbind counts fst snd]; intros;
          try match goal with
              | |- context [match ?x with _ => _ end] => destruct x
              end);
  cbv beta; lia.

Lemma manage_context_window_counts (self : llm) :
  counts (fun n => (n <= 1)%nat) (manage_context_window self).
Proof.
  unfold manage_context_window, summarize_chat_history, gpt4_one_shot.
  unfold_monad. count_paths.
Qed.

Lemma send_message_counts (prompt role : pystr) (json_response : bool) (self : llm) :
  In role valid_roles ->
  counts (fun n => (1 <= n <= 2)%nat) (send_message prompt role json_response self).
Proof.
  intros Hrole. unfold send_message. rewrite (role_dispatch prompt Hrole).
  unfold manage_context_window, summarize_chat_history, gpt4_conversation,
    gpt4_one_shot, add_message_to_history.
  unfold_monad. count_paths.
Qed.

(** X13: the cost of a call in service requests, whatever the service
    replies: [manage_context_window] sends at most one request; a
    [send_message] with a valid role sends at least one and at most
    two; a [send_message] with an invalid role sends none. *)
Theorem X13_requests_per_call :
  forall (W : Type) (client : W -> request -> W * reply) (w : W) (self : llm)
         (prompt role : pystr) (json_response : bool),
    (count_requests (trace_of (run client (manage_context_window self) w)) <= 1)%nat
    /\ (In role valid_roles ->
        (1 <= count_requests
                (trace_of (run client (send_message prompt role json_response self) w))
         <= 2)%nat)
    /\ (~ In role valid_roles ->
        count_requests
          (trace_of (run client (send_message prompt role json_response self) w)) = O).
Proof.
  intros W client w self prompt role json_response. split; [|split].
  - exact (counts_run client (fun n => (n <= 1)%nat) _ w
             (manage_context_window_counts self)).
  - intros Hrole.
    exact (counts_run client (fun n => (1 <= n <= 2)%nat) _ w
             (send_message_counts prompt json_response self Hrole)).
  - intros Hrole.
    destruct (role_rejected Hrole) as (H1 & H2 & H3).
    unfold send_message. rewrite H1, H2, H3. reflexivity.
Qed.

(** ** What every session keeps *)

Lemma keeps_bind {A B : Type} (I : llm -> Prop) (m : M A) (f : A -> M B) :
  keeps I m -> (forall a, keeps I (f a)) -> keeps I (bind m f).
Proof.
  intros Hm Hf self HI.
  apply leaves_bind with (Q := fun sr => I (fst sr)).
  - apply Hm, HI.
  - intros s e H. exact H.
  - intros s a H. apply Hf, H.
Qed.

Section Keeps.
Variable I : llm -> Prop.
Hypothesis keeps_add : forall msg, keeps I (add_message_to_history msg).
Hypothesis keeps_manage : keeps I manage_context_window.

Lemma keeps_ret {A : Type} (a : A) : keeps I (ret a).
Proof. intros self H. exact H. Qed.

Lemma keeps_raise {A : Type} (e : exn) : keeps I (@raise A e).
Proof. intros self H. exact H. Qed.

Lemma keeps_get : keeps I get.
Proof. intros self H. exact H. Qed.

Lemma keeps_enter (m : method) : keeps I (enter m).
Proof. intros self H. exact H. Qed.

Lemma keeps_create (rq : request) : keeps I (create rq).
Proof. intros self H a. exact H. Qed.

Lemma keeps_index_first {A : Type} (xs : list A) : keeps I (index_first xs).
Proof. destruct xs; [apply keeps_raise|apply keeps_ret]. Qed.

Ltac keeps_step :=
  repeat first
    [ assumption
    | apply keeps_add
    | apply keeps_ret | apply keeps_raise | apply keeps_get | apply keeps_enter
    | apply keeps_create | apply keeps_index_first
    | match goal with |- keeps _ (if ?c then _ else _) => destruct c end
    | apply keeps_bind; [|intros ?] ].

Lemma keeps_gpt4_conversation (window : list message) (json_response : bool)
    (model : pystr) :
  keeps I (gpt4_conversation window json_response model).
Proof. unfold gpt4_conversation. keeps_step. Qed.

Lemma keeps_gpt4_one_shot (system_prompt user_prompt : pystr) (json_response : bool)
    (model : pystr) :
  keeps I (gpt4_one_shot system_prompt user_prompt json_response model).
Proof. unfold gpt4_one_shot. keeps_step. Qed.

Lemma keeps_summarize_chat_history : keeps I summarize_chat_history.
Proof.
  unfold summarize_chat_history.
  apply keeps_bind; [apply keeps_enter|intros _].
  apply keeps_bind; [apply keeps_get|intros self].
  apply keeps_bind; [apply keeps_gpt4_one_shot|intros text]. apply keeps_ret.
Qed.

Lemma keeps_send_message (prompt role : pystr) (json_response : bool) :
  keeps I (send_message prompt role json_response).
Proof.
  unfold send_message.
  apply keeps_bind; [apply keeps_enter|intros _].
  apply keeps_bind; [keeps_step|intros _].
  apply keeps_bind; [exact keeps_manage|intros window].
  apply keeps_bind; [apply keeps_gpt4_conversation|intros resp].
  apply keeps_bind; [apply keeps_index_first|intros text].
  apply keeps_bind; [apply keeps_add|intros _]. apply keeps_ret.
Qed.

Lemma keeps_call (o : op) : keeps I (call o).
Proof.
  destruct o; cbn [call]; unfold forget.
  - apply keeps_add.
  - apply keeps_ret.
  - apply keeps_bind; [apply keeps_summarize_chat_history|intros ?; apply keeps_ret].
  - apply keeps_bind; [exact keeps_manage|intros ?; apply keeps_ret].
  - apply keeps_bind; [apply keeps_send_message|intros ?; apply keeps_ret].
  - apply keeps_bind; [apply keeps_gpt4_conversation|intros ?; apply keeps_ret].
  - apply keeps_bind; [apply keeps_gpt4_one_shot|intros ?; apply keeps_ret].
Qed.

Lemma keeps_session (ops : list op) (self : llm) :
  I self -> leaves I (session ops self).
Proof.
  revert self. induction ops as [|o ops IH]; intros self H; cbn [session].
  - exact H.
  - apply leaves_pbind. apply leaves_weaken with (2 := @keeps_call o self H).
    intros sr Hsr. apply IH, Hsr.
Qed.
End Keeps.

Lemma latest_of_suffix (older recent : list message) :
  recent <> [] -> latest_of (older ++ recent) = latest_of recent.
Proof.
  intros H. destruct (exists_last H) as (r & m & ->).
  now rewrite app_assoc, !latest_of_app.
Qed.

Lemma tracks_verbatim_latest (self : llm) :
  tracks_verbatim self ->
  latest_of (summarized_message_history self) = latest_of (full_message_history self).
Proof.
  intros [H | (text & older & recent & Hne & Hs & Hf)].
  - now rewrite H.
  - rewrite Hs, Hf.
    change ({| role := py "system"; content := text |} :: recent)
      with ([ {| role := py "system"; content := text |} ] ++ recent).
    now rewrite !latest_of_suffix.
Qed.

Lemma add_message_to_history_tracks (msg : message) :
  keeps tracks_verbatim (add_message_to_history msg).
Proof.
  intros self H.
  cbn [add_message_to_history bind enter get put pbind leaves fst snd].
  destruct H as [H | (text & older & recent & Hne & Hs & Hf)].
  - left. cbn. now rewrite H.
  - right. exists text, older, (recent ++ [msg]). cbn. rewrite Hs, Hf. split.
    + intros E. apply app_eq_nil in E. destruct E as [_ E]. discriminate E.
    + split; [reflexivity|]. now rewrite app_assoc.
Qed.

Lemma manage_context_window_tracks : keeps tracks_verbatim manage_context_window.
Proof.
  intros self H.
  apply leaves_weaken with (2 := manage_context_window_leaves self).
  intros [s r] [Hfull Hsum]. cbn [fst] in *.
  destruct Hsum as [Hsame | (text & earlier & latest & Heq & Hnew)].
  - unfold tracks_verbatim. rewrite Hsame, Hfull. exact H.
  - right. rewrite Hnew, Hfull.
    destruct H as [H | (text0 & older & recent & Hne & Hs & Hf)].
    + exists text, earlier, [latest]. split; [discriminate|]. split; [reflexivity|].
      now rewrite <- H.
    + destruct (exists_last Hne) as (recent' & l & ->).
      rewrite Hs in Heq.
      change ({| role := py "system"; content := text0 |} :: recent' ++ [l])
        with (({| role := py "system"; content := text0 |} :: recent') ++ [l]) in Heq.
      apply app_inj_tail in Heq. destruct Heq as [_ ->].
      exists text, (older ++ recent'), [latest]. split; [discriminate|].
      split; [reflexivity|]. now rewrite Hf, app_assoc.
Qed.

(** X14: the active history follows the verbatim one through every
    session.  Started on an object whose active history is the
    verbatim history (as for a new object), or a system summary
    followed by the most recent verbatim messages, any sequence of
    calls, whatever the service replies and whichever calls raise,
    leaves an object of the same kind; in particular both histories
    always end with the same message. *)
Theorem X14_active_history_tracks_verbatim :
  forall (W : Type) (client : W -> request -> W * reply) (w : W)
         (ops : list op) (self : llm),
    tracks_verbatim self ->
    tracks_verbatim (value_of (run client (session ops self) w))
    /\ latest_of (summarized_message_history (value_of (run client (session ops self) w)))
       = latest_of (full_message_history (value_of (run client (session ops self) w))).
Proof.
  intros W client w ops self H.
  assert (Hend : tracks_verbatim (value_of (run client (session ops self) w))).
  { exact (leaves_run client tracks_verbatim (session ops self) w
             (keeps_session add_message_to_history_tracks manage_context_window_tracks
                ops self H)). }
  split; [exact Hend|]. now apply tracks_verbatim_latest.
Qed.

Lemma X14_witness :
  tracks_verbatim (TestDouble.fresh 5)
  /\ tracks_verbatim
       (value_of (run TestDouble.scripted
          (session [ op_send_message (py "a b c") (py "user") false;
                     op_send_message (py "g h i j k l") (py "user") true;
                     op_manage_context_window ]
                   (TestDouble.fresh 5))
          [ TestDouble.completion (py "d e f") 100;
            TestDouble.completion (py "summary") 100 ]))
  /\ latest_of (summarized_message_history
       (value_of (run TestDouble.scripted
          (session [ op_send_message (py "a b c") (py "user") false;
                     op_send_message (py "g h i j k l") (py "user") true;
                     op_manage_context_window ]
                   (TestDouble.fresh 5))
          [ TestDouble.completion (py "d e f") 100;
            TestDouble.completion (py "summary") 100 ])))
     = latest_of (full_message_history
       (value_of (run TestDouble.scripted
          (session [ op_send_message (py "a b c") (py "user") false;
                     op_send_message (py "g h i j k l") (py "user") true;
                     op_manage_context_window ]
                   (TestDouble.fresh 5))
          [ TestDouble.completion (py "d e f") 100;
            TestDouble.completion (py "summary") 100 ]))).
Proof.
  assert (H : tracks_verbatim (TestDouble.fresh 5)) by (left; reflexivity).
  split; [exact H|].
  exact (@X14_active_history_tracks_verbatim _ TestDouble.scripted
           [ TestDouble.completion (py "d e f") 100;
             TestDouble.completion (py "summary") 100 ]
           [ op_send_message (py "a b c") (py "user") false;
             op_send_message (py "g h i j k l") (py "user") true;
             op_manage_context_window ]
           (TestDouble.fresh 5) H).
Defined.

Lemma add_message_to_history_config (d : bool) (t : Z) (msg : message) :
  keeps (fun s => DEBUG s = d /\ token_threshold_to_trigger_summarization s = t)
        (add_message_to_history msg).
Proof. intros self H. exact H. Qed.

Lemma manage_context_window_config (d : bool) (t : Z) :
  keeps (fun s => DEBUG s = d /\ token_threshold_to_trigger_summarization s = t)
        manage_context_window.
Proof.
  intros self H.
  apply leaves_weaken with (2 := manage_context_window_outcomes self).
  intros sr [Hsr | [(e & Hsr) | (text & earlier & latest & _ & Hsr)]];
    rewrite Hsr; exact H.
Qed.

(** X15: no method touches the configuration: after any sequence of
    calls, whatever the service replies, the threshold and the debug
    flag of the object are the ones it started with. *)
Theorem X15_configuration_is_never_changed :
  forall (W : Type) (client : W -> request -> W * reply) (w : W)
         (ops : list op) (self : llm),
    token_threshold_to_trigger_summarization (value_of (run client (session ops self) w))
    = token_threshold_to_trigger_summarization self
    /\ DEBUG (value_of (run client (session ops self) w)) = DEBUG self.
Proof.
  intros W client w ops self.
  pose proof (leaves_run client _ (session ops self) w
                (keeps_session
                   (@add_message_to_history_config (DEBUG self)
                      (token_threshold_to_trigger_summarization self))
                   (@manage_context_window_config (DEBUG self)
                      (token_threshold_to_trigger_summarization self))
                   ops self (conj eq_refl eq_refl))) as [H1 H2].
  split; [exact H2|exact H1].
Qed.

(** X16: whenever [manage_context_window] returns, for an active
    history that has a last message, the window it returns is the
    active history it leaves in the object, it ends with that last
    message, and it is either the previous active history or a system
    summary followed by that message; the verbatim history is the one
    it started with. *)
Theorem X16_window_ends_with_latest :
  forall (W : Type) (client : W -> request -> W * reply) (w : W) (self : llm)
         (earlier : list message) (latest : message) (window : list message),
    summarized_message_history self = earlier ++ [latest] ->
    snd (value_of (run client (manage_context_window self) w)) = inr window ->
    summarized_message_history (fst (value_of (run client (manage_context_window self) w)))
      = window
    /\ full_message_history (fst (value_of (run client (manage_context_window self) w)))
       = full_message_history self
    /\ latest_of window = Some latest
    /\ (window = summarized_message_history self
        \/ exists text, window = [ {| role := py "system"; content := text |}; latest ]).
Proof.
  intros W client w self earlier latest window Hlast.
  pose proof (leaves_run client _ _ w (manage_context_window_outcomes self)) as H.
  cbv beta in H.
  match type of H with context [value_of ?x] => set (v := value_of x) in H end.
  change (value_of _) with v. clearbody v.
  intros Hret.
  destruct H as [H | [(e & H) | (text & earlier' & latest' & Heq & H)]]; subst v;
    cbn [fst snd] in *.
  - inversion Hret; subst window. split; [reflexivity|]. split; [reflexivity|].
    split; [|now left]. rewrite Hlast. apply latest_of_app.
  - discriminate Hret.
  - inversion Hret; subst window.
    rewrite Hlast in Heq. apply app_inj_tail in Heq. destruct Heq as [_ <-].
    split; [reflexivity|]. split; [reflexivity|]. split; [reflexivity|].
    right. now exists text.
Qed.

Lemma X16_witness :
  summarized_message_history TestDouble.scenario2
  = [ {| role := py "user"; content := py "a b c" |};
      {| role := py "assistant"; content := py "d e f" |} ]
    ++ [ {| role := py "user"; content := py "g h i j k l" |} ]
  /\ latest_of [ {| role := py "system"; content := py "summary" |};
                 {| role := py "user"; content := py "g h i j k l" |} ]
     = Some {| role := py "user"; content := py "g h i j k l" |}
  /\ summarized_message_history
       (fst (value_of (run TestDouble.scripted (manage_context_window TestDouble.scenario2)
                           [TestDouble.completion (py "summary") 100])))
     = [ {| role := py "system"; content := py "summary" |};
         {| role := py "user"; content := py "g h i j k l" |} ].
Proof.
  split; [reflexivity|].
  destruct (@X16_window_ends_with_latest _ TestDouble.scripted
              [TestDouble.completion (py "summary") 100] TestDouble.scenario2
              [ {| role := py "user"; content := py "a b c" |};
                {| role := py "assistant"; content := py "d e f" |} ]
              {| role := py "user"; content := py "g h i j k l" |}
              [ {| role := py "system"; content := py "summary" |};
                {| role := py "user"; content := py "g h i j k l" |} ]
              eq_refl eq_refl)
    as (H1 & _ & H3 & _).
  split; [exact H3|exact H1].
Defined.
